(** * Statistics and runtime comparison of the serverless dashboard

    A shallow embedding of the two pieces of computation in
    [CC_project/frontend/app.py]:

    - [calculate_function_stats] (lines 348-396), the summary statistics
      over a list of execution records;
    - the three percentage differences computed at the top of
      [show_comparison_page] (lines 739-741);

    and of the code around them: the API helpers [get_functions] and
    [get_function_metrics], the conversion of the metrics into execution
    records in [show_metrics_page], the verdict shown under each chart
    of [show_comparison_page], and the function that
    [show_functions_page] selects.

    Execution records are JSON objects decoded by [requests], that is
    Python [dict]s from [str] to arbitrary JSON values.  They are modelled
    as [gmap string pyval].  Python exceptions are modelled by an error
    monad.

    Numbers.  A Python [int] is a [Z].  A Python [float] is modelled by the
    rational number it denotes ([Q], kept in lowest terms by [Qred]):
    arithmetic on floats is exact in this model, so rounding, infinities,
    NaN and the [OverflowError] of converting an [int] beyond the range of
    a double are outside of it.  The statements that say which exception
    is raised, or that a result is returned, therefore keep to inputs
    whose ints are exactly representable as doubles ([within_double]),
    on which Python raises no [OverflowError]. *)

From Stdlib Require Import ZArith QArith Qabs Qminmax Lia Lqa.
From stdpp Require Import gmap strings list fin_maps.

Open Scope Z_scope.

Set Warnings "-register-all".

(** ** Python values *)

Inductive pyval : Type :=
  | VNone
  | VBool (b : bool)
  | VInt (z : Z)
  | VFloat (q : Q)
  | VStr (s : string)
  | VList (items : list pyval)
  | VDict (entries : list (string * pyval)).

(** One execution record: [Dict[str, Any]]. *)
Abbreviation record := (gmap string pyval).

Inductive exn : Type :=
  | TypeError
  | ZeroDivisionError
  | ValueError
  | KeyError.

Inductive result (A : Type) : Type :=
  | Ok (a : A)
  | Raise (e : exn).
Arguments Ok {A} a.
Arguments Raise {A} e.

(** An exception raised by a step is raised by the whole computation. *)
Definition bind {A B : Type} (m : result A) (k : A -> result B) : result B :=
  match m with
  | Ok a => k a
  | Raise e => Raise e
  end.

Notation "'let*' x ':=' m 'in' k" := (bind m (fun x => k))
  (at level 10, x name, m at level 100, k at level 200,
   format "'[v' 'let*'  x  :=  m  'in' '/' k ']'").

(** *** Truth value, [dict.get], [in], [==] against a string literal *)

(** [bool(v)]: [None], [False], zero, and the empty string, list and dict
    are false; everything else is true. *)
Definition truthy (v : pyval) : bool :=
  match v with
  | VNone => false
  | VBool b => b
  | VInt z => negb (z =? 0)
  | VFloat q => negb (Qeq_bool q 0)
  | VStr s => negb (String.eqb s "")
  | VList items => match items with [] => false | _ => true end
  | VDict entries => match entries with [] => false | _ => true end
  end.

(** [e.get(key, dflt)] *)
Definition get (e : record) (key : string) (dflt : pyval) : pyval :=
  match e !! key with
  | Some v => v
  | None => dflt
  end.

(** [key in e] *)
Definition contains (e : record) (key : string) : bool :=
  match e !! key with
  | Some _ => true
  | None => false
  end.

(** [e[key]] *)
Definition subscript (e : record) (key : string) : result pyval :=
  match e !! key with
  | Some v => Ok v
  | None => Raise KeyError
  end.

(** [v == "literal"]: only a string equals a string. *)
Definition eq_str (v : pyval) (s : string) : bool :=
  match v with
  | VStr t => String.eqb t s
  | _ => false
  end.

(** *** Numbers and arithmetic *)

Inductive num : Type :=
  | NInt (z : Z)
  | NFloat (q : Q).

(** The number a value is, if any; [bool] is a subclass of [int]. *)
Definition as_num (v : pyval) : option num :=
  match v with
  | VBool b => Some (NInt (if b then 1 else 0))
  | VInt z => Some (NInt z)
  | VFloat q => Some (NFloat q)
  | _ => None
  end.

Definition num_Q (n : num) : Q :=
  match n with
  | NInt z => inject_Z z
  | NFloat q => q
  end.

Definition is_number (v : pyval) : bool :=
  match as_num v with
  | Some _ => true
  | None => false
  end.

(** The rational value of a value that is a number (0 for the others). *)
Definition value_Q (v : pyval) : Q :=
  match as_num v with
  | Some n => num_Q n
  | None => 0%Q
  end.

(** [a + b], [a - b], [a * b] on numbers: two ints give an int, a float
    on either side gives a float.  Any other operand is a [TypeError]:
    no JSON value that is not a number supports [-]; [+] and [*] are only
    ever applied by the program to a left operand that is a number (the
    accumulator of [sum], a quotient), where Python rejects a right
    operand that is not one.  The result is exact: Python rounds it to a
    double, and raises [OverflowError] when an int beyond the range of a
    double meets a float, which the model leaves out (see
    [within_double]). *)
Definition arith (fz : Z -> Z -> Z) (fq : Q -> Q -> Q) (a b : pyval)
  : result pyval :=
  match as_num a, as_num b with
  | Some (NInt x), Some (NInt y) => Ok (VInt (fz x y))
  | Some x, Some y => Ok (VFloat (Qred (fq (num_Q x) (num_Q y))))
  | _, _ => Raise TypeError
  end.

Definition py_add : pyval -> pyval -> result pyval := arith Z.add Qplus.
Definition py_sub : pyval -> pyval -> result pyval := arith Z.sub Qminus.
Definition py_mul : pyval -> pyval -> result pyval := arith Z.mul Qmult.

(** [a / b]: true division always gives a float.  The quotient is
    exact: Python rounds it to a double, and raises [OverflowError] when
    an int operand or the quotient of two ints is beyond the range of a
    double, which the model leaves out (see [within_double]). *)
Definition py_truediv (a b : pyval) : result pyval :=
  match as_num a, as_num b with
  | Some x, Some y =>
      if Qeq_bool (num_Q y) 0 then Raise ZeroDivisionError
      else Ok (VFloat (Qred (num_Q x / num_Q y)))
  | _, _ => Raise TypeError
  end.

(** [a < b] between numbers; ints and floats compare by value.  The
    orderings of strings and lists are not modelled: [min] and [max] are
    only reached after [sum] has accepted the same list (lemma
    [py_sum_Ok_numbers]), which then holds numbers only. *)
Definition py_lt (a b : pyval) : result bool :=
  match as_num a, as_num b with
  | Some x, Some y =>
      Ok (match num_Q x ?= num_Q y with Lt => true | _ => false end)%Q
  | _, _ => Raise TypeError
  end.

(** [a > b] between numbers. *)
Definition py_gt (a b : pyval) : result bool := py_lt b a.

(** [sum(items)]: start from the int 0 and add from the left. *)
Definition py_sum (items : list pyval) : result pyval :=
  foldl (fun (acc : result pyval) (x : pyval) => let* a := acc in py_add a x) (Ok (VInt 0)) items.

(** [min(items)]: the first smallest item; [ValueError] on an empty list. *)
Definition py_min (items : list pyval) : result pyval :=
  match items with
  | [] => Raise ValueError
  | first :: rest =>
      foldl (fun (acc : result pyval) (item : pyval) =>
               let* best := acc in
               let* smaller := py_lt item best in
               Ok (if smaller then item else best))
            (Ok first) rest
  end.

(** [max(items)]: the first largest item. *)
Definition py_max (items : list pyval) : result pyval :=
  match items with
  | [] => Raise ValueError
  | first :: rest =>
      foldl (fun (acc : result pyval) (item : pyval) =>
               let* best := acc in
               let* larger := py_gt item best in
               Ok (if larger then item else best))
            (Ok first) rest
  end.

(** [len(items)] *)
Definition len {A : Type} (items : list A) : Z := Z.of_nat (length items).

(** [sum(1 for e in executions if cond(e))] *)
Definition count_if (cond : record -> bool) (executions : list record) : Z :=
  foldl Z.add 0 (map (fun _ => 1) (filter (fun e => cond e = true) executions)).

(** [[e[key] for e in executions if key in e]]: one item, the value
    under [key], for each record that has the key, in order. *)
Definition values_of (key : string) (executions : list record) : list pyval :=
  omap (fun e : record => e !! key) executions.

(** ** [calculate_function_stats] *)

Record distribution : Type := {
  docker : Z;
  gvisor : Z
}.

Record start_counts : Type := {
  warm : Z;
  cold : Z
}.

Record stats : Type := {
  total_executions : Z;
  success_rate : pyval;
  avg_initialization_time : pyval;
  min_initialization_time : pyval;
  max_initialization_time : pyval;
  avg_execution_time : pyval;
  min_execution_time : pyval;
  max_execution_time : pyval;
  avg_total_time : pyval;
  min_total_time : pyval;
  max_total_time : pyval;
  runtime_distribution : distribution;
  warm_vs_cold : start_counts
}.

(** [sum(times)/len(times) if times else 0] *)
Definition avg_or_zero (times : list pyval) : result pyval :=
  match times with
  | [] => Ok (VInt 0)
  | _ => let* s := py_sum times in py_truediv s (VInt (len times))
  end.

(** [min(times) if times else 0] *)
Definition min_or_zero (times : list pyval) : result pyval :=
  match times with
  | [] => Ok (VInt 0)
  | _ => py_min times
  end.

(** [max(times) if times else 0] *)
Definition max_or_zero (times : list pyval) : result pyval :=
  match times with
  | [] => Ok (VInt 0)
  | _ => py_max times
  end.

Definition calculate_function_stats (executions : list record) : result stats :=
  match executions with
  | [] =>
      Ok {| total_executions := 0;
            success_rate := VInt 0;
            avg_initialization_time := VInt 0;
            min_initialization_time := VInt 0;
            max_initialization_time := VInt 0;
            avg_execution_time := VInt 0;
            min_execution_time := VInt 0;
            max_execution_time := VInt 0;
            avg_total_time := VInt 0;
            min_total_time := VInt 0;
            max_total_time := VInt 0;
            runtime_distribution := {| docker := 0; gvisor := 0 |};
            warm_vs_cold := {| warm := 0; cold := 0 |} |}
  | _ =>
      (* Calculate success rate *)
      let successful :=
        count_if (fun e => truthy (get e "success" (VBool false))) executions in
      let* success_rate :=
        match executions with
        | [] => Ok (VInt 0)
        | _ => let* r := py_truediv (VInt successful) (VInt (len executions)) in
               py_mul r (VInt 100)
        end in
      (* Calculate time averages *)
      let exec_times := values_of "execution_time_ms" executions in
      let init_times := values_of "initialization_time_ms" executions in
      let total_times := values_of "total_time_ms" executions in
      let* avg_init := avg_or_zero init_times in
      let* min_init := min_or_zero init_times in
      let* max_init := max_or_zero init_times in
      let* avg_exec := avg_or_zero exec_times in
      let* min_exec := min_or_zero exec_times in
      let* max_exec := max_or_zero exec_times in
      let* avg_total := avg_or_zero total_times in
      let* min_total := min_or_zero total_times in
      let* max_total := max_or_zero total_times in
      Ok {| total_executions := len executions;
            success_rate := success_rate;
            avg_initialization_time := avg_init;
            min_initialization_time := min_init;
            max_initialization_time := max_init;
            avg_execution_time := avg_exec;
            min_execution_time := min_exec;
            max_execution_time := max_exec;
            avg_total_time := avg_total;
            min_total_time := min_total;
            max_total_time := max_total;
            runtime_distribution :=
              {| docker := count_if (fun e => eq_str (get e "runtime" VNone) "docker") executions;
                 gvisor := count_if (fun e => eq_str (get e "runtime" VNone) "gvisor") executions |};
            warm_vs_cold :=
              {| warm := count_if (fun e => negb (truthy (get e "cold_start" (VBool true)))) executions;
                 cold := count_if (fun e => truthy (get e "cold_start" (VBool true))) executions |} |}
  end.

(** The two records of the worked scenario. *)
Definition scenario : list record :=
  [ {[ "success" := VBool true; "runtime" := VStr "docker";
       "cold_start" := VBool false; "execution_time_ms" := VInt 10 ]};
    {[ "success" := VBool false; "runtime" := VStr "gvisor";
       "cold_start" := VBool true; "execution_time_ms" := VInt 50 ]} ].

(** ** The percentage differences of [show_comparison_page] *)

(** [((gvisor_stats[key] - docker_stats[key]) / docker_stats[key]) * 100
     if docker_stats[key] else 0].  The condition is evaluated first. *)
Definition percentage_diff (gvisor_stats docker_stats : record) (key : string)
  : result pyval :=
  let* baseline := subscript docker_stats key in
  if truthy baseline then
    let* g := subscript gvisor_stats key in
    let* d := subscript docker_stats key in
    let* difference := py_sub g d in
    let* d' := subscript docker_stats key in
    let* ratio := py_truediv difference d' in
    py_mul ratio (VInt 100)
  else Ok (VInt 0).

(** [init_diff], [exec_diff] and [total_diff], computed in this order. *)
Definition comparison_diffs (docker_stats gvisor_stats : record)
  : result (pyval * pyval * pyval) :=
  let* init_diff := percentage_diff gvisor_stats docker_stats "avg_init_time_ms" in
  let* exec_diff := percentage_diff gvisor_stats docker_stats "avg_exec_time_ms" in
  let* total_diff := percentage_diff gvisor_stats docker_stats "avg_total_time_ms" in
  Ok (init_diff, exec_diff, total_diff).

Definition averages (init exec total : pyval) : record :=
  {[ "avg_init_time_ms" := init; "avg_exec_time_ms" := exec;
     "avg_total_time_ms" := total ]}.

(** ** Vocabulary of the statements *)

(** The condition under which line 367 counts a record as successful. *)
Definition is_successful (e : record) : bool :=
  truthy (get e "success" (VBool false)).

(** The [success] field is there and holds a true value. *)
Definition success_present_and_truthy (e : record) : bool :=
  match e !! "success" with
  | Some v => truthy v
  | None => false
  end.

(** The [runtime] field is there and is one of the two known names. *)
Definition recognized_runtime (e : record) : bool :=
  match e !! "runtime" with
  | Some (VStr name) => String.eqb name "docker" || String.eqb name "gvisor"
  | _ => false
  end.

(** The [cold_start] field is there and is exactly [False]. *)
Definition explicitly_warm (e : record) : bool :=
  match e !! "cold_start" with
  | Some (VBool false) => true
  | _ => false
  end.

(** The [cold_start] field is there and holds a false value: [False],
    [None], a zero, or an empty string, list or object. *)
Definition counts_as_warm (e : record) : bool :=
  match e !! "cold_start" with
  | Some v => negb (truthy v)
  | None => false
  end.

(** The [cold_start] field is missing, or holds a true value. *)
Definition counts_as_cold (e : record) : bool :=
  match e !! "cold_start" with
  | Some v => truthy v
  | None => true
  end.


(** The number [successful] of line 367. *)
Definition successful_count (executions : list record) : Z :=
  count_if (fun e => truthy (get e "success" (VBool false))) executions.

(** The exact sum of the values of a list of numbers. *)
Definition sum_Q (items : list pyval) : Q :=
  foldr (fun v acc => value_Q v + acc)%Q 0%Q items.

(** The three timing fields, their keys, and their three statistics in
    the summary. *)
Inductive timing_field : Type :=
  | Initialization
  | Execution
  | Total.

Definition field_key (f : timing_field) : string :=
  match f with
  | Initialization => "initialization_time_ms"
  | Execution => "execution_time_ms"
  | Total => "total_time_ms"
  end.

Definition avg_of (f : timing_field) (s : stats) : pyval :=
  match f with
  | Initialization => avg_initialization_time s
  | Execution => avg_execution_time s
  | Total => avg_total_time s
  end.

Definition min_of (f : timing_field) (s : stats) : pyval :=
  match f with
  | Initialization => min_initialization_time s
  | Execution => min_execution_time s
  | Total => min_total_time s
  end.

Definition max_of (f : timing_field) (s : stats) : pyval :=
  match f with
  | Initialization => max_initialization_time s
  | Execution => max_execution_time s
  | Total => max_total_time s
  end.

(** The timing fields that are present all hold numbers. *)
Definition timings_are_numbers (executions : list record) : Prop :=
  forall (e : record) (f : timing_field) (v : pyval),
    e ∈ executions -> e !! field_key f = Some v -> is_number v = true.

(** An int that a double represents exactly; the other values are not
    restricted.  Arithmetic on such ints and on floats raises no
    [OverflowError] in Python. *)
Definition within_double (v : pyval) : bool :=
  match v with
  | VInt z => Z.abs z <=? 2 ^ 53
  | _ => true
  end.

(** A list that fits in memory, whose timing fields hold no int beyond
    that. *)
Definition timings_within_double_range (executions : list record) : Prop :=
  len executions < 2 ^ 63 /\
  forall (e : record) (f : timing_field) (v : pyval),
    e ∈ executions -> e !! field_key f = Some v -> within_double v = true.

(** The worked scenario and its summary. *)
Definition scenario_summary : stats :=
  {| total_executions := 2;
     success_rate := VFloat 50;
     avg_initialization_time := VInt 0;
     min_initialization_time := VInt 0;
     max_initialization_time := VInt 0;
     avg_execution_time := VFloat 30;
     min_execution_time := VInt 10;
     max_execution_time := VInt 50;
     avg_total_time := VInt 0;
     min_total_time := VInt 0;
     max_total_time := VInt 0;
     runtime_distribution := {| docker := 1; gvisor := 1 |};
     warm_vs_cold := {| warm := 1; cold := 1 |} |}.

(** The record whose [cold_start] is the JSON [null]. *)
Definition null_cold_start : record := {[ "cold_start" := VNone ]}.

(** The record whose execution time is the JSON [null]. *)
Definition null_execution_time : record := {[ "execution_time_ms" := VNone ]}.

(** * The callers of the two computations *)

(** ** Loops that can raise *)

(** [[f(x) for x in items]], or a loop appending [f(x)] to a list: the
    first exception ends it. *)
Fixpoint for_each {A B : Type} (f : A -> result B) (items : list A)
  : result (list B) :=
  match items with
  | [] => Ok []
  | x :: rest =>
      let* y := f x in
      let* ys := for_each f rest in
      Ok (y :: ys)
  end.

(** ** The API helpers that fetch a list (lines 74-84 and 166-176)

    What [requests.get(url)] does is the environment's: it raises an
    exception [e] ([RequestFails (str e)]), or gives a response with its
    status code, its text, and what [response.json()] does on it:
    return the decoded body or raise.  Both endpoints modelled here
    answer with a JSON list of objects.  A helper returns its value and
    the texts it passed to [st.error]. *)

Definition API_BASE_URL : string := "http://127.0.0.1:8000".

Inductive http_outcome : Type :=
  | RequestFails (reason : string)
  | Response (status_code : Z) (text : string)
             (json : string + list record).

Definition get_functions (requests_get : string -> http_outcome)
  : list record * list string :=
  match requests_get (API_BASE_URL +:+ "/functions/") with
  | RequestFails reason => ([], ["API Error: " +:+ reason])
  | Response status_code text json =>
      if status_code =? 200 then
        match json with
        | inr body => (body, [])
        | inl reason => ([], ["API Error: " +:+ reason])
        end
      else ([], ["Error fetching functions: " +:+ text])
  end.

Definition get_function_metrics (requests_get : string -> http_outcome)
    (name : string) : option (list record) * list string :=
  match requests_get (API_BASE_URL +:+ "/metrics/functions/" +:+ name) with
  | RequestFails reason => (None, ["API Error: " +:+ reason])
  | Response status_code text json =>
      if status_code =? 200 then
        match json with
        | inr body => (Some body, [])
        | inl reason => (None, ["API Error: " +:+ reason])
        end
      else (None, ["Error fetching metrics: " +:+ text])
  end.

(** ** The head of [show_metrics_page] and [show_comparison_page]
       (lines 403-408 and 709-714) *)

(** [[func["name"] for func in functions]] *)
Definition function_names (functions : list record) : result (list pyval) :=
  for_each (fun func => subscript func "name") functions.

(** The names offered for selection; [None] when the page warns that
    there is no function and returns. *)
Definition listed_functions (requests_get : string -> http_outcome)
  : result (option (list pyval)) :=
  let functions := fst (get_functions requests_get) in
  let* names := function_names functions in
  match names with
  | [] => Ok None
  | _ => Ok (Some names)
  end.

(** ** From the metrics to the summary (lines 413-438) *)

(** The dict appended to [executions] for one metric. *)
Definition convert_metric (metric : record) : result record :=
  let* id := subscript metric "id" in
  let* function_name := subscript metric "function_name" in
  let* runtime := subscript metric "runtime" in
  let* language := subscript metric "language" in
  let* initialization_time_ms := subscript metric "initialization_time_ms" in
  let* execution_time_ms := subscript metric "execution_time_ms" in
  let* total_time_ms := subscript metric "total_time_ms" in
  let* cold_start := subscript metric "cold_start" in
  let* error_message := subscript metric "error_message" in
  let* timestamp := subscript metric "timestamp" in
  let* status := subscript metric "status" in
  Ok ({[ "id" := id;
         "function_name" := function_name;
         "runtime" := runtime;
         "language" := language;
         "initialization_time_ms" := initialization_time_ms;
         "execution_time_ms" := execution_time_ms;
         "total_time_ms" := total_time_ms;
         "cold_start" := cold_start;
         "error" := error_message;
         "timestamp" := timestamp;
         "success" := VBool (eq_str status "success") ]} : record).

(** The keys [convert_metric] reads. *)
Definition metric_keys : list string :=
  [ "id"; "function_name"; "runtime"; "language"; "initialization_time_ms";
    "execution_time_ms"; "total_time_ms"; "cold_start"; "error_message";
    "timestamp"; "status" ].

(** The keys of the dict [convert_metric] builds, and those among them
    whose value is the metric's value under the same key. *)
Definition execution_keys : list string :=
  [ "id"; "function_name"; "runtime"; "language"; "initialization_time_ms";
    "execution_time_ms"; "total_time_ms"; "cold_start"; "error";
    "timestamp"; "success" ].

Definition carried_keys : list string :=
  [ "id"; "function_name"; "runtime"; "language"; "initialization_time_ms";
    "execution_time_ms"; "total_time_ms"; "cold_start"; "timestamp" ].

(** A metric as the API returns it. *)
Definition sample_metric : record :=
  {[ "id" := VInt 7; "function_name" := VStr "hello";
     "runtime" := VStr "gvisor"; "language" := VStr "python";
     "initialization_time_ms" := VFloat (5 # 2);
     "execution_time_ms" := VInt 12; "total_time_ms" := VFloat (29 # 2);
     "cold_start" := VBool true; "error_message" := VNone;
     "timestamp" := VStr "2025-04-01T10:00:00"; "status" := VStr "success" ]}.

(** The execution record built from it. *)
Definition sample_execution : record :=
  {[ "id" := VInt 7; "function_name" := VStr "hello";
     "runtime" := VStr "gvisor"; "language" := VStr "python";
     "initialization_time_ms" := VFloat (5 # 2);
     "execution_time_ms" := VInt 12; "total_time_ms" := VFloat (29 # 2);
     "cold_start" := VBool true; "error" := VNone;
     "timestamp" := VStr "2025-04-01T10:00:00"; "success" := VBool true ]}.

(** A second metric, of a failed docker execution, and the two together. *)
Definition failed_metric : record :=
  {[ "id" := VInt 8; "function_name" := VStr "hello";
     "runtime" := VStr "docker"; "language" := VStr "python";
     "initialization_time_ms" := VInt 1;
     "execution_time_ms" := VFloat (7 # 2); "total_time_ms" := VFloat (9 # 2);
     "cold_start" := VBool false; "error_message" := VStr "timeout";
     "timestamp" := VStr "2025-04-01T10:05:00"; "status" := VStr "error" ]}.

Definition sample_metrics : list record := [sample_metric; failed_metric].

(** The summary the page shows for them. *)
Definition sample_metrics_summary : stats :=
  {| total_executions := 2;
     success_rate := VFloat 50;
     avg_initialization_time := VFloat (7 # 4);
     min_initialization_time := VInt 1;
     max_initialization_time := VFloat (5 # 2);
     avg_execution_time := VFloat (31 # 4);
     min_execution_time := VFloat (7 # 2);
     max_execution_time := VInt 12;
     avg_total_time := VFloat (19 # 2);
     min_total_time := VFloat (9 # 2);
     max_total_time := VFloat (29 # 2);
     runtime_distribution := {| docker := 1; gvisor := 1 |};
     warm_vs_cold := {| warm := 1; cold := 1 |} |}.

(** Three functions, two of them with the same name. *)
Definition first_hello : record :=
  {[ "name" := VStr "hello"; "language" := VStr "python";
     "code" := VStr "print(1)"; "timeout" := VInt 30 ]}.

Definition sample_functions : list record :=
  [ first_hello;
    {[ "name" := VStr "bye"; "language" := VStr "javascript";
       "code" := VStr "console.log(2);"; "timeout" := VInt 10 ]};
    {[ "name" := VStr "hello"; "language" := VStr "javascript";
       "code" := VStr "console.log(3);"; "timeout" := VInt 60 ]} ].

(** The [cold_start] field is there and holds a true value. *)
Definition cold_start_present_and_truthy (m : record) : bool :=
  match m !! "cold_start" with
  | Some v => truthy v
  | None => false
  end.

(** The metric's [status] is the string ["success"]. *)
Definition status_is_success (metric : record) : bool :=
  match metric !! "status" with
  | Some status => eq_str status "success"
  | None => false
  end.

(** What becomes of [metrics_data]: [None] when it is [None] or empty
    (the page warns and returns), otherwise the summary of the converted
    records. *)
Definition metrics_page_stats (metrics_data : option (list record))
  : result (option stats) :=
  match metrics_data with
  | None => Ok None
  | Some [] => Ok None
  | Some metrics =>
      let* executions := for_each convert_metric metrics in
      let* stats := calculate_function_stats executions in
      Ok (Some stats)
  end.

(** [if selected_function:] and what follows, for a selection that is a
    string. *)
Definition metrics_page (requests_get : string -> http_outcome)
    (selected_function : string) : result (option stats) :=
  if negb (String.eqb selected_function "") then
    let metrics_data := fst (get_function_metrics requests_get selected_function) in
    metrics_page_stats metrics_data
  else Ok None.

(** ** The verdict under each comparison chart (lines 822-825, 849-852
       and 876-879) *)

Inductive direction : Type :=
  | Slower
  | Faster.

(** [abs(v)] *)
Definition py_abs (v : pyval) : result pyval :=
  match as_num v with
  | Some (NInt z) => Ok (VInt (Z.abs z))
  | Some (NFloat q) => Ok (VFloat (Qabs q))
  | None => Raise TypeError
  end.

(** [if diff > 0: ... abs(diff) ... slower ... else: ... abs(diff) ...
    faster ...]: the wording of the message and the number formatted
    into it. *)
Definition verdict (diff : pyval) : result (direction * pyval) :=
  let* positive := py_gt diff (VInt 0) in
  if positive then
    let* magnitude := py_abs diff in
    Ok (Slower, magnitude)
  else
    let* magnitude := py_abs diff in
    Ok (Faster, magnitude).

(** ** Which function the function page selects (lines 207-254) *)

Definition create_label : string := "➕ Create New Function".

(** [function_names], with the label inserted at index 0. *)
Definition select_options (functions : list record) : result (list pyval) :=
  let* function_names := function_names functions in
  Ok (VStr create_label :: function_names).

(** [next((f for f in functions if f["name"] == selected), None)] for a
    selection that is a string. *)
Fixpoint find_function (functions : list record) (selected : string)
  : result (option record) :=
  match functions with
  | [] => Ok None
  | f :: rest =>
      let* name := subscript f "name" in
      if eq_str name selected then Ok (Some f)
      else find_function rest selected
  end.

(** The branch of line 219 taken for a selection that is a string and,
    in the [else] branch, the value line 254 binds to [func].  What the
    page then reads from [func] to build the edit form (lines 255-279)
    is not modelled. *)
Inductive page_branch : Type :=
  | CreateBranch
  | EditBranch (func : option record).

Definition page_branch_of (functions : list record) (selected : string)
  : result page_branch :=
  let* options := select_options functions in
  if String.eqb selected create_label then Ok CreateBranch
  else
    let* func := find_function functions selected in
    Ok (EditBranch func).

(** * Properties *)

(** ** The error monad *)

Lemma bind_Ok {A B : Type} (m : result A) (k : A -> result B) (b : B) :
  bind m k = Ok b <-> exists a, m = Ok a /\ k a = Ok b.
Proof.
  split.
  - destruct m as [a|e]; simpl; intros H; [eauto | discriminate].
  - intros (a & -> & Hk). exact Hk.
Qed.

(** Split a hypothesis [let* x := m in k = Ok b] into its steps. *)
Ltac bind_inv H :=
  repeat (let a := fresh "r" in
          let Ha := fresh "Hstep" in
          apply bind_Ok in H as (a & Ha & H)).

(** ** The builtins on small inputs *)

Example sum_of_bool_and_ints :
  py_sum [VBool true; VInt 2; VInt 3] = Ok (VInt 6).
Proof. reflexivity. Qed.

Example sum_with_a_float :
  py_sum [VInt 1; VFloat (5 # 2)] = Ok (VFloat (7 # 2)).
Proof. reflexivity. Qed.

Example sum_of_null : py_sum [VInt 1; VNone] = Raise TypeError.
Proof. reflexivity. Qed.

Example min_keeps_the_first_smallest :
  py_min [VInt 1; VFloat 1; VBool true] = Ok (VInt 1) /\
  py_max [VBool true; VFloat 1; VInt 1] = Ok (VBool true).
Proof. split; reflexivity. Qed.

Example min_of_one_item : py_min [VStr "n/a"] = Ok (VStr "n/a").
Proof. reflexivity. Qed.

Example division_gives_a_float :
  py_truediv (VInt 60) (VInt 2) = Ok (VFloat 30) /\
  py_truediv (VInt 1) (VInt 0) = Raise ZeroDivisionError.
Proof. split; reflexivity. Qed.

Example stats_of_mixed_records :
  calculate_function_stats
    [ {[ "execution_time_ms" := VBool true ]};
      {[ "execution_time_ms" := VFloat (1 # 3); "success" := VStr "yes" ]};
      {[ "total_time_ms" := VInt 7; "runtime" := VStr "runc" ]};
      ∅ ]
  = Ok {| total_executions := 4;
          success_rate := VFloat 25;
          avg_initialization_time := VInt 0;
          min_initialization_time := VInt 0;
          max_initialization_time := VInt 0;
          avg_execution_time := VFloat (2 # 3);
          min_execution_time := VFloat (1 # 3);
          max_execution_time := VBool true;
          avg_total_time := VFloat 7;
          min_total_time := VInt 7;
          max_total_time := VInt 7;
          runtime_distribution := {| docker := 0; gvisor := 0 |};
          warm_vs_cold := {| warm := 0; cold := 4 |} |}.
Proof. vm_compute. reflexivity. Qed.

Example missing_average_is_a_key_error :
  comparison_diffs (averages (VInt 100) (VInt 100) (VInt 100)) ∅
  = Raise KeyError.
Proof. vm_compute. reflexivity. Qed.

(** ** Counting *)

Lemma foldl_add_ones {A : Type} (l : list A) (acc : Z) :
  foldl Z.add acc (map (fun _ => 1) l) = acc + len l.
Proof.
  unfold len. revert acc.
  induction l as [|x l IH]; intros acc; simpl foldl.
  - simpl. lia.
  - rewrite IH. rewrite length_cons. lia.
Qed.

(** [sum(1 for e in executions if cond(e))] is the number of records
    that satisfy [cond]. *)
Lemma count_if_filter (cond : record -> bool) (executions : list record) :
  count_if cond executions = len (filter (fun e => cond e = true) executions).
Proof. unfold count_if. rewrite foldl_add_ones. lia. Qed.

Lemma count_if_nil (cond : record -> bool) : count_if cond [] = 0.
Proof. reflexivity. Qed.

Lemma count_if_cons (cond : record -> bool) (e : record) (l : list record) :
  count_if cond (e :: l) = (if cond e then 1 else 0) + count_if cond l.
Proof.
  rewrite !count_if_filter, filter_cons. unfold len.
  destruct (cond e) eqn:He.
  - rewrite decide_True by done. rewrite length_cons. lia.
  - rewrite decide_False by congruence. lia.
Qed.

Lemma count_if_app (cond : record -> bool) (l1 l2 : list record) :
  count_if cond (l1 ++ l2) = count_if cond l1 + count_if cond l2.
Proof.
  induction l1 as [|e l1 IH]; simpl app.
  - rewrite count_if_nil. lia.
  - rewrite !count_if_cons, IH. lia.
Qed.

Lemma count_if_bounds (cond : record -> bool) (l : list record) :
  0 <= count_if cond l <= len l.
Proof.
  induction l as [|e l IH].
  - rewrite count_if_nil. unfold len. simpl. lia.
  - rewrite count_if_cons. unfold len in *. rewrite length_cons.
    destruct (cond e); lia.
Qed.

(** Two conditions that never hold together count at most every record
    once; when one of them holds of each record they count them all. *)
Lemma count_if_disjoint (c1 c2 : record -> bool) (l : list record) :
  (forall e, c1 e = true -> c2 e = true -> False) ->
  count_if c1 l + count_if c2 l <= len l.
Proof.
  intros Hdisj. induction l as [|e l IH].
  - rewrite !count_if_nil. unfold len. simpl. lia.
  - rewrite !count_if_cons. unfold len in *. rewrite length_cons.
    specialize (Hdisj e).
    destruct (c1 e), (c2 e); first [lia | exfalso; auto].
Qed.

Lemma count_if_cover (c1 c2 : record -> bool) (l : list record) :
  (forall e, c1 e = true -> c2 e = true -> False) ->
  (forall e, e ∈ l -> c1 e = true \/ c2 e = true) ->
  count_if c1 l + count_if c2 l = len l.
Proof.
  intros Hdisj. induction l as [|e l IH]; intros Hcov.
  - rewrite !count_if_nil. reflexivity.
  - rewrite !count_if_cons. unfold len in *. rewrite length_cons.
    assert (Hl : forall e', e' ∈ l -> c1 e' = true \/ c2 e' = true).
    { intros e' He'. apply Hcov. by apply list_elem_of_further. }
    specialize (IH Hl). specialize (Hdisj e).
    destruct (Hcov e (list_elem_of_here _ _)) as [H1|H2].
    + rewrite H1 in *. destruct (c2 e); [exfalso; auto | lia].
    + rewrite H2 in *. destruct (c1 e); [exfalso; auto | lia].
Qed.

Lemma count_if_either (c1 c2 : record -> bool) (l : list record) :
  (forall e, c1 e = true -> c2 e = true -> False) ->
  count_if c1 l + count_if c2 l = count_if (fun e => c1 e || c2 e) l.
Proof.
  intros Hdisj. induction l as [|e l IH]; [reflexivity|].
  rewrite !count_if_cons. specialize (Hdisj e).
  destruct (c1 e), (c2 e); simpl; first [lia | exfalso; auto].
Qed.

Lemma count_if_ext (c1 c2 : record -> bool) (l : list record) :
  (forall e, e ∈ l -> c1 e = c2 e) -> count_if c1 l = count_if c2 l.
Proof.
  induction l as [|e l IH]; intros Hext; [reflexivity|].
  rewrite !count_if_cons, (Hext e) by apply list_elem_of_here.
  rewrite IH; [reflexivity|]. intros e' He'. apply Hext.
  by apply list_elem_of_further.
Qed.

(** ** What [calculate_function_stats] returns on a non-empty list *)

Lemma calculate_function_stats_Ok (executions : list record) (s : stats) :
  executions <> [] ->
  calculate_function_stats executions = Ok s <->
    (let* r := py_truediv (VInt (successful_count executions))
                          (VInt (len executions)) in
     py_mul r (VInt 100)) = Ok (success_rate s) /\
    avg_or_zero (values_of "initialization_time_ms" executions)
      = Ok (avg_initialization_time s) /\
    min_or_zero (values_of "initialization_time_ms" executions)
      = Ok (min_initialization_time s) /\
    max_or_zero (values_of "initialization_time_ms" executions)
      = Ok (max_initialization_time s) /\
    avg_or_zero (values_of "execution_time_ms" executions)
      = Ok (avg_execution_time s) /\
    min_or_zero (values_of "execution_time_ms" executions)
      = Ok (min_execution_time s) /\
    max_or_zero (values_of "execution_time_ms" executions)
      = Ok (max_execution_time s) /\
    avg_or_zero (values_of "total_time_ms" executions)
      = Ok (avg_total_time s) /\
    min_or_zero (values_of "total_time_ms" executions)
      = Ok (min_total_time s) /\
    max_or_zero (values_of "total_time_ms" executions)
      = Ok (max_total_time s) /\
    total_executions s = len executions /\
    docker (runtime_distribution s)
      = count_if (fun e => eq_str (get e "runtime" VNone) "docker") executions /\
    gvisor (runtime_distribution s)
      = count_if (fun e => eq_str (get e "runtime" VNone) "gvisor") executions /\
    warm (warm_vs_cold s)
      = count_if (fun e => negb (truthy (get e "cold_start" (VBool true)))) executions /\
    cold (warm_vs_cold s)
      = count_if (fun e => truthy (get e "cold_start" (VBool true))) executions.
Proof.
  intros Hne. destruct executions as [|e l]; [done|].
  unfold calculate_function_stats, successful_count.
  generalize (e :: l). clear. intros executions.
  split.
  - intros H. bind_inv H. injection H as <-. simpl.
    repeat split; assumption.
  - intros (H0 & H1 & H2 & H3 & H4 & H5 & H6 & H7 & H8 & H9 & Hrest).
    apply bind_Ok in H0 as (r & Hr & Hm).
    rewrite Hr, H1, H2, H3, H4, H5, H6, H7, H8, H9. simpl. rewrite Hm. simpl.
    destruct s as [t sr a1 a2 a3 a4 a5 a6 a7 a8 a9 [d g] [w c]]. simpl in *.
    destruct Hrest as (-> & -> & -> & -> & ->). reflexivity.
Qed.

(** ** Arithmetic on numbers *)

Lemma Qeq_bool_inject_Z (z : Z) : Qeq_bool (inject_Z z) 0 = (z =? 0).
Proof.
  unfold Qeq_bool, inject_Z. simpl.
  rewrite Z.mul_1_r. reflexivity.
Qed.

Lemma is_number_value (v : pyval) :
  is_number v = true -> exists n, as_num v = Some n /\ value_Q v = num_Q n.
Proof.
  unfold is_number, value_Q. destruct (as_num v) as [n|]; [eauto | discriminate].
Qed.

Lemma not_number_as_num (v : pyval) : is_number v = false -> as_num v = None.
Proof. unfold is_number. destruct (as_num v); [discriminate | reflexivity]. Qed.

(** The truth value of a number: it is not zero. *)
Lemma truthy_number (v : pyval) :
  is_number v = true -> truthy v = negb (Qeq_bool (value_Q v) 0).
Proof.
  destruct v as [|[]|z|q| | |]; try discriminate; intros _; try reflexivity.
  unfold value_Q. simpl. by rewrite Qeq_bool_inject_Z.
Qed.

Lemma arith_numbers (fz : Z -> Z -> Z) (fq : Q -> Q -> Q) (a b : pyval) :
  (forall x y, inject_Z (fz x y) == fq (inject_Z x) (inject_Z y))%Q ->
  is_number a = true -> is_number b = true ->
  exists v, arith fz fq a b = Ok v /\ is_number v = true /\
            (value_Q v == fq (value_Q a) (value_Q b))%Q.
Proof.
  intros Hfz (x & Hx & Hxa)%is_number_value (y & Hy & Hyb)%is_number_value.
  unfold arith. rewrite Hx, Hy, Hxa, Hyb.
  destruct x as [x|x], y as [y|y]; eexists; (split; [reflexivity|]);
    (split; [reflexivity|]); unfold value_Q; simpl;
    first [apply Hfz | apply Qred_correct].
Qed.

Lemma arith_not_number (fz : Z -> Z -> Z) (fq : Q -> Q -> Q) (a b : pyval) :
  is_number a = false \/ is_number b = false ->
  arith fz fq a b = Raise TypeError.
Proof.
  unfold arith. intros [H|H]; apply not_number_as_num in H; rewrite H.
  - reflexivity.
  - destruct (as_num a) as [[]|]; reflexivity.
Qed.

Lemma py_add_numbers (a b : pyval) :
  is_number a = true -> is_number b = true ->
  exists v, py_add a b = Ok v /\ is_number v = true /\
            (value_Q v == value_Q a + value_Q b)%Q.
Proof. apply arith_numbers. intros x y. by rewrite inject_Z_plus. Qed.

Lemma py_sub_numbers (a b : pyval) :
  is_number a = true -> is_number b = true ->
  exists v, py_sub a b = Ok v /\ is_number v = true /\
            (value_Q v == value_Q a - value_Q b)%Q.
Proof.
  apply arith_numbers. intros x y.
  unfold Z.sub, Qminus. rewrite inject_Z_plus, inject_Z_opp. reflexivity.
Qed.

Lemma py_mul_numbers (a b : pyval) :
  is_number a = true -> is_number b = true ->
  exists v, py_mul a b = Ok v /\ is_number v = true /\
            (value_Q v == value_Q a * value_Q b)%Q.
Proof. apply arith_numbers. intros x y. by rewrite inject_Z_mult. Qed.

(** Multiplying a float gives a float. *)
Lemma py_mul_float (q : Q) (b : pyval) :
  is_number b = true ->
  py_mul (VFloat q) b = Ok (VFloat (Qred (q * value_Q b))).
Proof.
  intros (y & Hy & Hyb)%is_number_value.
  unfold py_mul, arith. simpl. rewrite Hy, Hyb. reflexivity.
Qed.

Lemma py_truediv_numbers (a b : pyval) :
  is_number a = true -> is_number b = true ->
  py_truediv a b =
    if Qeq_bool (value_Q b) 0 then Raise ZeroDivisionError
    else Ok (VFloat (Qred (value_Q a / value_Q b))).
Proof.
  intros (x & Hx & Hxa)%is_number_value (y & Hy & Hyb)%is_number_value.
  unfold py_truediv. rewrite Hx, Hy, Hxa, Hyb. reflexivity.
Qed.

Lemma py_lt_numbers (a b : pyval) :
  is_number a = true -> is_number b = true ->
  exists c, py_lt a b = Ok c /\ (c = true <-> (value_Q a < value_Q b)%Q).
Proof.
  intros (x & Hx & Hxa)%is_number_value (y & Hy & Hyb)%is_number_value.
  unfold py_lt. rewrite Hx, Hy, Hxa, Hyb. eexists. split; [reflexivity|].
  rewrite Qlt_alt. destruct (num_Q x ?= num_Q y)%Q; split; congruence.
Qed.

Lemma py_gt_numbers (a b : pyval) :
  is_number a = true -> is_number b = true ->
  exists c, py_gt a b = Ok c /\ (c = true <-> (value_Q b < value_Q a)%Q).
Proof. intros Ha Hb. exact (py_lt_numbers b a Hb Ha). Qed.

(** ** [sum], [min] and [max] *)

Lemma foldl_Raise {A B : Type} (f : A -> B -> result A) (e : exn) (l : list B) :
  foldl (fun (acc : result A) (x : B) => let* a := acc in f a x) (Raise e) l
  = Raise e.
Proof. induction l as [|x l IH]; [reflexivity | exact IH]. Qed.

Lemma sum_from_numbers (items : list pyval) (acc : pyval) :
  is_number acc = true ->
  if forallb is_number items then
    exists v,
      foldl (fun (r : result pyval) (x : pyval) => let* a := r in py_add a x)
            (Ok acc) items = Ok v /\
      is_number v = true /\ (value_Q v == value_Q acc + sum_Q items)%Q
  else
    foldl (fun (r : result pyval) (x : pyval) => let* a := r in py_add a x)
          (Ok acc) items = Raise TypeError.
Proof.
  revert acc. induction items as [|x items IH]; intros acc Hacc; simpl.
  - exists acc. repeat split; [assumption | ring].
  - destruct (is_number x) eqn:Hx; simpl.
    + destruct (py_add_numbers acc x Hacc Hx) as (v & -> & Hv & Hval).
      specialize (IH v Hv). destruct (forallb is_number items).
      * destruct IH as (w & -> & Hw & Hwval). exists w.
        repeat split; [assumption|]. rewrite Hwval, Hval. ring.
      * exact IH.
    + unfold py_add. rewrite arith_not_number by auto.
      apply (foldl_Raise py_add).
Qed.

(** [sum] accepts exactly the lists of numbers, and adds them up. *)
Lemma py_sum_spec (items : list pyval) :
  if forallb is_number items then
    exists v, py_sum items = Ok v /\ is_number v = true /\
              (value_Q v == sum_Q items)%Q
  else py_sum items = Raise TypeError.
Proof.
  pose proof (sum_from_numbers items (VInt 0) eq_refl) as H.
  unfold py_sum. destruct (forallb is_number items); [|exact H].
  destruct H as (v & Hv & Hnum & Hval). exists v.
  repeat split; [assumption.. |]. rewrite Hval. unfold value_Q. simpl. ring.
Qed.

Lemma py_sum_Ok_numbers (items : list pyval) (v : pyval) :
  py_sum items = Ok v -> forallb is_number items = true.
Proof.
  intros Hv. pose proof (py_sum_spec items) as H.
  destruct (forallb is_number items); [reflexivity | congruence].
Qed.

Lemma min_from_numbers (rest : list pyval) (best : pyval) :
  is_number best = true -> forallb is_number rest = true ->
  exists v,
    foldl (fun (acc : result pyval) (item : pyval) =>
             let* best := acc in
             let* smaller := py_lt item best in
             Ok (if smaller then item else best)) (Ok best) rest = Ok v /\
    v ∈ best :: rest /\ is_number v = true /\
    (forall x, x ∈ best :: rest -> value_Q v <= value_Q x)%Q.
Proof.
  revert best. induction rest as [|x rest IH]; intros best Hbest Hrest; simpl.
  - exists best. repeat split; [apply list_elem_of_here | assumption |].
    intros x ->%list_elem_of_singleton. apply Qle_refl.
  - simpl in Hrest. apply andb_prop in Hrest as [Hx Hrest].
    destruct (py_lt_numbers x best Hx Hbest) as (c & -> & Hc). simpl.
    destruct (IH (if c then x else best)) as (v & -> & Hin & Hv & Hle);
      [by destruct c | assumption |].
    exists v. repeat split; [| assumption |].
    + apply elem_of_cons in Hin as [->|Hin].
      * destruct c; [apply list_elem_of_further, list_elem_of_here
                    | apply list_elem_of_here].
      * by do 2 apply list_elem_of_further.
    + assert (Hpick : (value_Q v <= value_Q x /\ value_Q v <= value_Q best)%Q).
      { pose proof (Hle _ (list_elem_of_here _ _)) as Hp. destruct c.
        - split; [exact Hp|]. apply Qle_trans with (value_Q x); [exact Hp|].
          apply Qlt_le_weak. by apply Hc.
        - split; [|exact Hp]. apply Qle_trans with (value_Q best); [exact Hp|].
          apply Qnot_lt_le. intros Hlt. apply Hc in Hlt. discriminate. }
      intros y Hy. apply elem_of_cons in Hy as [->|Hy]; [apply Hpick|].
      apply elem_of_cons in Hy as [->|Hy]; [apply Hpick|].
      apply Hle. by apply list_elem_of_further.
Qed.

Lemma max_from_numbers (rest : list pyval) (best : pyval) :
  is_number best = true -> forallb is_number rest = true ->
  exists v,
    foldl (fun (acc : result pyval) (item : pyval) =>
             let* best := acc in
             let* larger := py_gt item best in
             Ok (if larger then item else best)) (Ok best) rest = Ok v /\
    v ∈ best :: rest /\ is_number v = true /\
    (forall x, x ∈ best :: rest -> value_Q x <= value_Q v)%Q.
Proof.
  revert best. induction rest as [|x rest IH]; intros best Hbest Hrest; simpl.
  - exists best. repeat split; [apply list_elem_of_here | assumption |].
    intros x ->%list_elem_of_singleton. apply Qle_refl.
  - simpl in Hrest. apply andb_prop in Hrest as [Hx Hrest].
    destruct (py_gt_numbers x best Hx Hbest) as (c & -> & Hc). simpl.
    destruct (IH (if c then x else best)) as (v & -> & Hin & Hv & Hle);
      [by destruct c | assumption |].
    exists v. repeat split; [| assumption |].
    + apply elem_of_cons in Hin as [->|Hin].
      * destruct c; [apply list_elem_of_further, list_elem_of_here
                    | apply list_elem_of_here].
      * by do 2 apply list_elem_of_further.
    + assert (Hpick : (value_Q x <= value_Q v /\ value_Q best <= value_Q v)%Q).
      { pose proof (Hle _ (list_elem_of_here _ _)) as Hp. destruct c.
        - split; [exact Hp|]. apply Qle_trans with (value_Q x); [|exact Hp].
          apply Qlt_le_weak. by apply Hc.
        - split; [|exact Hp]. apply Qle_trans with (value_Q best); [|exact Hp].
          apply Qnot_lt_le. intros Hlt. apply Hc in Hlt. discriminate. }
      intros y Hy. apply elem_of_cons in Hy as [->|Hy]; [apply Hpick|].
      apply elem_of_cons in Hy as [->|Hy]; [apply Hpick|].
      apply Hle. by apply list_elem_of_further.
Qed.

(** ** The list comprehensions *)

(** [values_of] keeps the records that have the key and takes the value
    under it, as the comprehension is written. *)
Lemma values_of_comprehension (key : string) (executions : list record) :
  values_of key executions
  = map (fun e => get e key VNone)
        (filter (fun e => contains e key = true) executions).
Proof.
  unfold values_of, contains, get.
  induction executions as [|e l IH]; [reflexivity|].
  rewrite filter_cons. simpl. destruct (e !! key) as [v|] eqn:He.
  - rewrite decide_True by done. simpl. rewrite He. by f_equal.
  - rewrite decide_False by done. exact IH.
Qed.

(** ** The three statistics of one list of times *)

Lemma avg_or_zero_numbers (times : list pyval) :
  times <> [] -> forallb is_number times = true ->
  exists q, avg_or_zero times = Ok (VFloat q) /\
            (q == sum_Q times / inject_Z (len times))%Q.
Proof.
  intros Hne Hnum. pose proof (py_sum_spec times) as Hsum.
  rewrite Hnum in Hsum. destruct Hsum as (v & Hv & Hvnum & Hval).
  destruct times as [|x times]; [done|].
  unfold avg_or_zero. rewrite Hv. simpl bind.
  rewrite py_truediv_numbers by done.
  change (value_Q (VInt ?z)) with (inject_Z z).
  rewrite Qeq_bool_inject_Z.
  destruct (Z.eqb_spec (len (x :: times)) 0) as [H0|_].
  - unfold len in H0. rewrite length_cons in H0. lia.
  - eexists. split; [reflexivity|]. rewrite Qred_correct, Hval. reflexivity.
Qed.

Lemma avg_or_zero_not_numbers (times : list pyval) :
  forallb is_number times = false -> avg_or_zero times = Raise TypeError.
Proof.
  intros Hnum. pose proof (py_sum_spec times) as Hsum. rewrite Hnum in Hsum.
  destruct times as [|x times]; [discriminate|].
  unfold avg_or_zero. rewrite Hsum. reflexivity.
Qed.

Lemma min_or_zero_numbers (times : list pyval) :
  times <> [] -> forallb is_number times = true ->
  exists v, min_or_zero times = Ok v /\ v ∈ times /\
            (forall x, x ∈ times -> value_Q v <= value_Q x)%Q.
Proof.
  intros Hne Hnum. destruct times as [|x times]; [done|].
  simpl in Hnum. apply andb_prop in Hnum as [Hx Hnum].
  destruct (min_from_numbers times x Hx Hnum) as (v & Hv & Hin & _ & Hle).
  exists v. auto.
Qed.

Lemma max_or_zero_numbers (times : list pyval) :
  times <> [] -> forallb is_number times = true ->
  exists v, max_or_zero times = Ok v /\ v ∈ times /\
            (forall x, x ∈ times -> value_Q x <= value_Q v)%Q.
Proof.
  intros Hne Hnum. destruct times as [|x times]; [done|].
  simpl in Hnum. apply andb_prop in Hnum as [Hx Hnum].
  destruct (max_from_numbers times x Hx Hnum) as (v & Hv & Hin & _ & Hle).
  exists v. auto.
Qed.

(** On a list of numbers, empty or not, the three never raise. *)
Lemma stats_of_numbers (times : list pyval) :
  forallb is_number times = true ->
  exists a lo hi, avg_or_zero times = Ok a /\ min_or_zero times = Ok lo /\
                  max_or_zero times = Ok hi.
Proof.
  intros Hnum. destruct (decide (times = [])) as [->|Hne].
  - by exists (VInt 0), (VInt 0), (VInt 0).
  - destruct (avg_or_zero_numbers times Hne Hnum) as (q & -> & _).
    destruct (min_or_zero_numbers times Hne Hnum) as (lo & -> & _).
    destruct (max_or_zero_numbers times Hne Hnum) as (hi & -> & _).
    by exists (VFloat q), lo, hi.
Qed.

(** If the average is returned, the times are numbers. *)
Lemma avg_or_zero_Ok_numbers (times : list pyval) (a : pyval) :
  avg_or_zero times = Ok a -> forallb is_number times = true.
Proof.
  intros Ha. destruct (forallb is_number times) eqn:Hnum; [reflexivity|].
  rewrite avg_or_zero_not_numbers in Ha by assumption. discriminate.
Qed.

(** ** The success rate *)

Lemma success_rate_value (k n : Z) :
  n <> 0 ->
  (let* r := py_truediv (VInt k) (VInt n) in py_mul r (VInt 100))
  = Ok (VFloat (Qred (Qred (inject_Z k / inject_Z n) * inject_Z 100))).
Proof.
  intros Hn. rewrite py_truediv_numbers by reflexivity.
  change (value_Q (VInt ?z)) with (inject_Z z).
  rewrite Qeq_bool_inject_Z. destruct (Z.eqb_spec n 0) as [|_]; [done|].
  simpl bind. rewrite py_mul_float by reflexivity. reflexivity.
Qed.

Lemma len_nonempty {A : Type} (l : list A) : l <> [] -> 0 < len l.
Proof. destruct l; [done|]. unfold len. rewrite length_cons. lia. Qed.

(** ** The timing fields *)

(** Whatever the list, the statistics of a field are those of the values
    found under its key. *)
Lemma stats_field (executions : list record) (s : stats) (f : timing_field) :
  calculate_function_stats executions = Ok s ->
  avg_or_zero (values_of (field_key f) executions) = Ok (avg_of f s) /\
  min_or_zero (values_of (field_key f) executions) = Ok (min_of f s) /\
  max_or_zero (values_of (field_key f) executions) = Ok (max_of f s).
Proof.
  destruct executions as [|e l].
  - intros [= <-]. by destruct f.
  - intros H. apply calculate_function_stats_Ok in H; [|done].
    destruct f; simpl; tauto.
Qed.

(** The counts, whatever the list. *)
Lemma stats_counts (executions : list record) (s : stats) :
  calculate_function_stats executions = Ok s ->
  total_executions s = len executions /\
  docker (runtime_distribution s)
    = count_if (fun e => eq_str (get e "runtime" VNone) "docker") executions /\
  gvisor (runtime_distribution s)
    = count_if (fun e => eq_str (get e "runtime" VNone) "gvisor") executions /\
  warm (warm_vs_cold s)
    = count_if (fun e => negb (truthy (get e "cold_start" (VBool true)))) executions /\
  cold (warm_vs_cold s)
    = count_if (fun e => truthy (get e "cold_start" (VBool true))) executions.
Proof.
  destruct executions as [|e l].
  - intros [= <-]. by repeat split.
  - intros H. apply calculate_function_stats_Ok in H; [|done]. tauto.
Qed.

Lemma stats_success_rate (executions : list record) (s : stats) :
  executions <> [] ->
  calculate_function_stats executions = Ok s ->
  success_rate s =
    VFloat (Qred (Qred (inject_Z (successful_count executions)
                        / inject_Z (len executions)) * inject_Z 100)).
Proof.
  intros Hne H. apply calculate_function_stats_Ok in H as [H _]; [|done].
  rewrite success_rate_value in H; [congruence|].
  apply len_nonempty in Hne. lia.
Qed.

Lemma timings_are_numbers_values (executions : list record) :
  timings_are_numbers executions <->
  forall f, forallb is_number (values_of (field_key f) executions) = true.
Proof.
  unfold timings_are_numbers, values_of. split.
  - intros H f. apply forallb_forall. intros v Hv.
    apply list_elem_of_In, list_elem_of_omap in Hv as (e & He & Hv). eauto.
  - intros H e f v He Hv. specialize (H f).
    rewrite forallb_forall in H. apply H.
    apply list_elem_of_In, list_elem_of_omap. eauto.
Qed.

Lemma scenario_returns : calculate_function_stats scenario = Ok scenario_summary.
Proof. vm_compute. reflexivity. Qed.

(** * The claims *)

(** C9.  Called on the empty list, [calculate_function_stats] returns,
    without raising, the summary in which everything is zero: no
    executions, success rate 0, the nine average, minimum and maximum
    times 0, and zero counts for docker, gvisor, warm and cold. *)
Theorem empty_list_gives_all_zero_summary :
  calculate_function_stats [] =
  Ok {| total_executions := 0;
        success_rate := VInt 0;
        avg_initialization_time := VInt 0;
        min_initialization_time := VInt 0;
        max_initialization_time := VInt 0;
        avg_execution_time := VInt 0;
        min_execution_time := VInt 0;
        max_execution_time := VInt 0;
        avg_total_time := VInt 0;
        min_total_time := VInt 0;
        max_total_time := VInt 0;
        runtime_distribution := {| docker := 0; gvisor := 0 |};
        warm_vs_cold := {| warm := 0; cold := 0 |} |}.
Proof. reflexivity. Qed.

(** C1.  On the two records of the worked scenario (a successful docker
    warm start of 10 ms and a failed gvisor cold start of 50 ms, neither
    with an initialization or total time) the summary has 2 executions, a
    success rate of 50.0, one docker and one gvisor execution, one warm
    and one cold start, and execution times of average 30.0, minimum 10
    and maximum 50. *)
Theorem scenario_summary_values :
  calculate_function_stats scenario =
  Ok {| total_executions := 2;
        success_rate := VFloat 50;
        avg_initialization_time := VInt 0;
        min_initialization_time := VInt 0;
        max_initialization_time := VInt 0;
        avg_execution_time := VFloat 30;
        min_execution_time := VInt 10;
        max_execution_time := VInt 50;
        avg_total_time := VInt 0;
        min_total_time := VInt 0;
        max_total_time := VInt 0;
        runtime_distribution := {| docker := 1; gvisor := 1 |};
        warm_vs_cold := {| warm := 1; cold := 1 |} |}.
Proof. vm_compute. reflexivity. Qed.

(** *** Runtime and start-type counts *)

Lemma eq_str_docker_gvisor (v : pyval) :
  eq_str v "docker" = true -> eq_str v "gvisor" = true -> False.
Proof.
  destruct v as [| | | |name| |]; simpl; try discriminate.
  intros ->%String.eqb_eq. discriminate.
Qed.

Lemma recognized_runtime_eq_str (e : record) :
  eq_str (get e "runtime" VNone) "docker"
  || eq_str (get e "runtime" VNone) "gvisor" = recognized_runtime e.
Proof.
  unfold recognized_runtime, get.
  by destruct (e !! "runtime") as [[| | | |name| |]|].
Qed.

(** C5.  For every list of records, the docker and gvisor counts add up
    to at most the number of executions, and to exactly that number when
    every record has one of the two runtimes: together they count the
    records whose runtime is one of the two, each once.  The warm and
    cold counts add up to exactly the number of executions. *)
Theorem distribution_counts_within_total
    (executions : list record) (s : stats) :
  calculate_function_stats executions = Ok s ->
  docker (runtime_distribution s) + gvisor (runtime_distribution s)
    <= total_executions s /\
  ((forall e, e ∈ executions -> recognized_runtime e = true) ->
   docker (runtime_distribution s) + gvisor (runtime_distribution s)
     = total_executions s) /\
  docker (runtime_distribution s) + gvisor (runtime_distribution s)
    = len (filter (fun e => recognized_runtime e = true) executions) /\
  warm (warm_vs_cold s) + cold (warm_vs_cold s) = total_executions s.
Proof.
  intros (-> & -> & -> & -> & ->)%stats_counts.
  split; [|split; [|split]].
  - apply count_if_disjoint. intros e. apply eq_str_docker_gvisor.
  - intros Hrec. apply count_if_cover.
    + intros e. apply eq_str_docker_gvisor.
    + intros e He. apply orb_prop.
      rewrite recognized_runtime_eq_str. auto.
  - rewrite count_if_either by (intros e; apply eq_str_docker_gvisor).
    rewrite (count_if_ext _ recognized_runtime).
    + apply count_if_filter.
    + intros e _. apply recognized_runtime_eq_str.
  - apply count_if_cover.
    + intros e. by destruct (truthy _).
    + intros e _. destruct (truthy _); auto.
Qed.

Lemma distribution_counts_within_total_witness :
  calculate_function_stats scenario = Ok scenario_summary /\
  docker (runtime_distribution scenario_summary)
  + gvisor (runtime_distribution scenario_summary)
    <= total_executions scenario_summary.
Proof.
  split; [vm_compute; reflexivity|].
  apply (distribution_counts_within_total scenario scenario_summary).
  vm_compute. reflexivity.
Defined.

(** *** Success rate *)

Lemma successful_count_filter (executions : list record) :
  successful_count executions
  = len (filter (fun e => is_successful e = true) executions).
Proof. apply count_if_filter. Qed.

Lemma percentage_bounds (k n : Z) (q : Q) :
  0 <= k <= n -> 0 < n ->
  (q == Qred (inject_Z k / inject_Z n) * inject_Z 100)%Q ->
  (q == 100 * inject_Z k / inject_Z n /\ 0 <= q <= 100)%Q.
Proof.
  intros [Hk0 Hkn] Hn Hq. rewrite Qred_correct in Hq.
  assert (Hn' : (0 < inject_Z n)%Q) by (rewrite <- (Zlt_Qlt 0); lia).
  assert (Hlo : (0 <= inject_Z k / inject_Z n)%Q).
  { apply Qle_shift_div_l; [assumption|]. rewrite Qmult_0_l.
    rewrite <- (Zle_Qle 0). lia. }
  assert (Hhi : (inject_Z k / inject_Z n <= 1)%Q).
  { apply Qle_shift_div_r; [assumption|]. rewrite Qmult_1_l.
    rewrite <- Zle_Qle. lia. }
  assert (Hform : (q == 100 * inject_Z k / inject_Z n)%Q).
  { rewrite Hq. change (inject_Z 100) with 100%Q. unfold Qdiv. ring. }
  split; [exact Hform|].
  rewrite Hq. change (inject_Z 100) with 100%Q.
  revert Hlo Hhi. generalize (inject_Z k / inject_Z n)%Q. intros x Hlo Hhi.
  split; lra.
Qed.

(** C8.  For every non-empty list of records the success rate is the
    float 100 * (number of successful records) / (number of executions),
    with no rounding applied by the function, and lies between 0 and
    100. *)
Theorem success_rate_is_percentage (executions : list record) (s : stats) :
  executions <> [] ->
  calculate_function_stats executions = Ok s ->
  exists q : Q,
    success_rate s = VFloat q /\
    (q == 100 * inject_Z (len (filter (fun e => is_successful e = true) executions))
          / inject_Z (total_executions s))%Q /\
    (0 <= q <= 100)%Q.
Proof.
  intros Hne H. pose proof (stats_counts _ _ H) as (-> & _).
  rewrite (stats_success_rate _ _ Hne H). eexists. split; [reflexivity|].
  rewrite <- successful_count_filter.
  apply percentage_bounds.
  - apply count_if_bounds.
  - by apply len_nonempty.
  - apply Qred_correct.
Qed.

Lemma success_rate_is_percentage_witness :
  scenario <> [] /\
  calculate_function_stats scenario = Ok scenario_summary /\
  exists q : Q,
    success_rate scenario_summary = VFloat q /\
    (q == 100 * inject_Z (len (filter (fun e => is_successful e = true) scenario))
          / inject_Z (total_executions scenario_summary))%Q /\
    (0 <= q <= 100)%Q.
Proof.
  split; [discriminate|]. split; [vm_compute; reflexivity|].
  apply (success_rate_is_percentage scenario scenario_summary).
  - discriminate.
  - vm_compute. reflexivity.
Defined.

Lemma is_successful_present (e : record) :
  is_successful e = success_present_and_truthy e.
Proof.
  unfold is_successful, success_present_and_truthy, get.
  by destruct (e !! "success").
Qed.

(** C10.  A record without a [success] field is not counted as
    successful: the number of successes, and with it the success rate,
    counts exactly the records whose [success] field is present and
    true, and adding a record without the field leaves the number of
    successes as it was. *)
Theorem absent_success_counts_as_failure
    (executions : list record) (s : stats) :
  executions <> [] ->
  calculate_function_stats executions = Ok s ->
  (forall e : record, e !! "success" = None -> is_successful e = false) /\
  successful_count executions
    = len (filter (fun e => success_present_and_truthy e = true) executions) /\
  (value_Q (success_rate s)
   == 100 * inject_Z (len (filter (fun e => success_present_and_truthy e = true)
                                  executions))
      / inject_Z (len executions))%Q /\
  (forall (e : record) (s' : stats),
     e !! "success" = None ->
     calculate_function_stats (executions ++ [e]) = Ok s' ->
     (value_Q (success_rate s')
      == 100 * inject_Z (successful_count executions)
         / inject_Z (len executions + 1))%Q).
Proof.
  intros Hne H.
  assert (Hcount : forall l, successful_count l
            = len (filter (fun e => success_present_and_truthy e = true) l)).
  { intros l. unfold successful_count.
    rewrite (count_if_ext _ success_present_and_truthy).
    - apply count_if_filter.
    - intros e _. apply is_successful_present. }
  assert (Hmiss : forall e : record,
            e !! "success" = None -> is_successful e = false).
  { intros e He. rewrite is_successful_present.
    unfold success_present_and_truthy. by rewrite He. }
  assert (Hrate : forall l t, l <> [] -> calculate_function_stats l = Ok t ->
            (value_Q (success_rate t)
             == 100 * inject_Z (successful_count l) / inject_Z (len l))%Q).
  { intros l t Hl Ht. rewrite (stats_success_rate _ _ Hl Ht).
    change (value_Q (VFloat ?q)) with q.
    apply (percentage_bounds (successful_count l) (len l)).
    - apply count_if_bounds.
    - by apply len_nonempty.
    - apply Qred_correct. }
  repeat split.
  - exact Hmiss.
  - apply Hcount.
  - rewrite <- Hcount. by apply Hrate.
  - intros e s' He Hs'.
    rewrite (Hrate _ _ (fun Hnil => app_cons_not_nil _ _ _ (eq_sym Hnil)) Hs').
    unfold successful_count at 1. rewrite count_if_app, count_if_cons.
    fold (is_successful e). rewrite (Hmiss e He), count_if_nil.
    unfold len at 1. rewrite length_app. simpl length.
    replace (Z.of_nat (length executions + 1)) with (len executions + 1)
      by (unfold len; lia).
    fold (successful_count executions).
    replace (successful_count executions + (0 + 0))
      with (successful_count executions) by lia.
    reflexivity.
Qed.

Lemma absent_success_counts_as_failure_witness :
  scenario <> [] /\
  calculate_function_stats scenario = Ok scenario_summary /\
  successful_count scenario
    = len (filter (fun e => success_present_and_truthy e = true) scenario).
Proof.
  split; [discriminate|]. split; [vm_compute; reflexivity|].
  apply (absent_success_counts_as_failure scenario scenario_summary).
  - discriminate.
  - vm_compute. reflexivity.
Defined.

(** *** Warm and cold starts *)

Lemma truthy_false_iff (v : pyval) :
  truthy v = false <->
  v = VNone \/ v = VBool false \/ v = VInt 0 \/
  (exists q, v = VFloat q /\ (q == 0)%Q) \/
  v = VStr "" \/ v = VList [] \/ v = VDict [].
Proof.
  split.
  - destruct v as [|b|z|q|str|items|entries]; simpl; intros H.
    + auto.
    + subst b. auto.
    + apply negb_false_iff, Z.eqb_eq in H. subst z. auto 10.
    + apply negb_false_iff, Qeq_bool_iff in H. eauto 10.
    + apply negb_false_iff, String.eqb_eq in H. subst str. auto 10.
    + destruct items; [auto 10 | discriminate].
    + destruct entries; [auto 10 | discriminate].
  - intros [->|[->|[->|[(q & -> & Hq)|[->|[->| ->]]]]]]; try reflexivity.
    simpl. apply negb_false_iff, Qeq_bool_iff, Hq.
Qed.

Lemma warm_condition (e : record) :
  negb (truthy (get e "cold_start" (VBool true))) = counts_as_warm e.
Proof. unfold counts_as_warm, get. by destruct (e !! "cold_start"). Qed.

Lemma cold_condition (e : record) :
  truthy (get e "cold_start" (VBool true)) = counts_as_cold e.
Proof. unfold counts_as_cold, get. by destruct (e !! "cold_start"). Qed.

(** C2, as stated, fails: a record whose [cold_start] is present as
    [null], which is not an explicit [False], is counted as warm and not
    as cold. *)
Lemma null_cold_start_counts_as_warm :
  null_cold_start !! "cold_start" = Some VNone /\
  explicitly_warm null_cold_start = false /\
  exists s, calculate_function_stats [null_cold_start] = Ok s /\
            warm (warm_vs_cold s) = 1 /\ cold (warm_vs_cold s) = 0.
Proof.
  split; [reflexivity|]. split; [reflexivity|].
  eexists. split; [vm_compute; reflexivity|]. split; reflexivity.
Qed.

(** C2, amended.  A record counts as warm exactly when its [cold_start]
    field is present and holds a false value ([False], [None], a zero, an
    empty string, list or object), and as cold exactly when the field is
    missing or holds a true value.  In particular a further record
    without [cold_start] adds one to the cold count and nothing to the
    warm count. *)
Theorem warm_iff_cold_start_present_and_falsy
    (executions : list record) (s : stats) :
  calculate_function_stats executions = Ok s ->
  warm (warm_vs_cold s)
    = len (filter (fun e => counts_as_warm e = true) executions) /\
  cold (warm_vs_cold s)
    = len (filter (fun e => counts_as_cold e = true) executions) /\
  (forall v : pyval,
     truthy v = false <->
     v = VNone \/ v = VBool false \/ v = VInt 0 \/
     (exists q, v = VFloat q /\ (q == 0)%Q) \/
     v = VStr "" \/ v = VList [] \/ v = VDict []) /\
  (forall (e : record) (s' : stats),
     e !! "cold_start" = None ->
     calculate_function_stats (executions ++ [e]) = Ok s' ->
     cold (warm_vs_cold s') = cold (warm_vs_cold s) + 1 /\
     warm (warm_vs_cold s') = warm (warm_vs_cold s)).
Proof.
  intros (_ & _ & _ & Hw & Hc)%stats_counts.
  split; [|split; [|split]].
  - rewrite Hw, (count_if_ext _ counts_as_warm).
    + apply count_if_filter.
    + intros e _. apply warm_condition.
  - rewrite Hc, (count_if_ext _ counts_as_cold).
    + apply count_if_filter.
    + intros e _. apply cold_condition.
  - apply truthy_false_iff.
  - intros e s' He (_ & _ & _ & Hw' & Hc')%stats_counts.
    rewrite Hw', Hc', Hw, Hc, !count_if_app, !count_if_cons, !count_if_nil.
    unfold get. rewrite He. simpl. lia.
Qed.

Lemma warm_iff_cold_start_present_and_falsy_witness :
  calculate_function_stats scenario = Ok scenario_summary /\
  warm (warm_vs_cold scenario_summary)
    = len (filter (fun e => counts_as_warm e = true) scenario).
Proof.
  split; [vm_compute; reflexivity|].
  apply (warm_iff_cold_start_present_and_falsy scenario scenario_summary).
  vm_compute. reflexivity.
Defined.

(** *** When the function returns *)

Lemma calculate_function_stats_returns (executions : list record) :
  timings_are_numbers executions ->
  exists s, calculate_function_stats executions = Ok s.
Proof.
  intros Hnum. destruct executions as [|e l]; [by eexists|].
  rewrite timings_are_numbers_values in Hnum.
  destruct (stats_of_numbers _ (Hnum Initialization)) as (a1 & lo1 & hi1 & Ha1 & Hlo1 & Hhi1).
  destruct (stats_of_numbers _ (Hnum Execution)) as (a2 & lo2 & hi2 & Ha2 & Hlo2 & Hhi2).
  destruct (stats_of_numbers _ (Hnum Total)) as (a3 & lo3 & hi3 & Ha3 & Hlo3 & Hhi3).
  simpl field_key in *.
  eexists {| total_executions := _; success_rate := _;
             avg_initialization_time := a1; min_initialization_time := lo1;
             max_initialization_time := hi1;
             avg_execution_time := a2; min_execution_time := lo2;
             max_execution_time := hi2;
             avg_total_time := a3; min_total_time := lo3;
             max_total_time := hi3;
             runtime_distribution := {| docker := _; gvisor := _ |};
             warm_vs_cold := {| warm := _; cold := _ |} |}.
  apply calculate_function_stats_Ok; [done|].
  cbn [total_executions success_rate avg_initialization_time
       min_initialization_time max_initialization_time avg_execution_time
       min_execution_time max_execution_time avg_total_time min_total_time
       max_total_time runtime_distribution warm_vs_cold docker gvisor warm
       cold].
  split; [apply success_rate_value; unfold len; rewrite length_cons; lia|].
  repeat split; assumption.
Qed.

Lemma calculate_function_stats_Ok_numbers (executions : list record) (s : stats) :
  calculate_function_stats executions = Ok s -> timings_are_numbers executions.
Proof.
  intros H. apply timings_are_numbers_values. intros f.
  destruct (stats_field executions s f H) as (Ha & _).
  by apply avg_or_zero_Ok_numbers in Ha.
Qed.

(** The only exception the function raises is [TypeError]. *)
Lemma calculate_function_stats_cases (executions : list record) :
  (exists s, calculate_function_stats executions = Ok s) \/
  calculate_function_stats executions = Raise TypeError.
Proof.
  destruct executions as [|e l]; [left; by eexists|].
  destruct (forallb is_number (values_of "initialization_time_ms" (e :: l)))
    eqn:Hi;
  [destruct (forallb is_number (values_of "execution_time_ms" (e :: l)))
     eqn:He;
   [destruct (forallb is_number (values_of "total_time_ms" (e :: l)))
      eqn:Ht|]|].
  - left. apply calculate_function_stats_returns, timings_are_numbers_values.
    by intros [].
  - right. unfold calculate_function_stats.
    rewrite success_rate_value by (unfold len; rewrite length_cons; lia).
    destruct (stats_of_numbers _ Hi) as (a1 & lo1 & hi1 & -> & -> & ->).
    destruct (stats_of_numbers _ He) as (a2 & lo2 & hi2 & -> & -> & ->).
    rewrite (avg_or_zero_not_numbers _ Ht). reflexivity.
  - right. unfold calculate_function_stats.
    rewrite success_rate_value by (unfold len; rewrite length_cons; lia).
    destruct (stats_of_numbers _ Hi) as (a1 & lo1 & hi1 & -> & -> & ->).
    rewrite (avg_or_zero_not_numbers _ He). reflexivity.
  - right. unfold calculate_function_stats.
    rewrite success_rate_value by (unfold len; rewrite length_cons; lia).
    rewrite (avg_or_zero_not_numbers _ Hi). reflexivity.
Qed.

(** C4, as stated, fails: on a record whose [execution_time_ms] is
    present but is [null] the function raises [TypeError]. *)
Lemma null_timing_raises :
  calculate_function_stats [null_execution_time] = Raise TypeError.
Proof. vm_compute. reflexivity. Qed.

(** A list within the range of doubles, by its values. *)
Lemma timings_within_double_range_values (executions : list record) :
  timings_within_double_range executions <->
  len executions < 2 ^ 63 /\
  forall f, forallb within_double (values_of (field_key f) executions) = true.
Proof.
  unfold timings_within_double_range, values_of.
  split; intros [Hlen H]; (split; [exact Hlen|]).
  - intros f. apply forallb_forall. intros v Hv.
    apply list_elem_of_In, list_elem_of_omap in Hv as (e & He & Hv). eauto.
  - intros e f v He Hv. specialize (H f).
    rewrite forallb_forall in H. apply H.
    apply list_elem_of_In, list_elem_of_omap. eauto.
Qed.

(** C4, amended.  For every list of records whose timing fields hold no
    int beyond what a double represents exactly, the function returns a
    summary if each timing field that is present holds a number,
    whatever other fields are missing or malformed, and raises
    [TypeError] if some timing field that is present holds something
    else.  (The hypothesis on the ints keeps to the inputs on which
    Python's float arithmetic raises no [OverflowError], an exception
    the exact arithmetic of the model does not have.) *)
Theorem returns_iff_timings_are_numbers (executions : list record) :
  timings_within_double_range executions ->
  (timings_are_numbers executions ->
   exists s, calculate_function_stats executions = Ok s) /\
  (~ timings_are_numbers executions ->
   calculate_function_stats executions = Raise TypeError).
Proof.
  intros _. split.
  - apply calculate_function_stats_returns.
  - intros Hnot.
    destruct (calculate_function_stats_cases executions) as [[s Hs]|Hr];
      [|exact Hr].
    exfalso. apply Hnot. exact (calculate_function_stats_Ok_numbers _ _ Hs).
Qed.

Lemma returns_iff_timings_are_numbers_witness :
  (timings_within_double_range scenario /\
   timings_are_numbers scenario /\
   exists s, calculate_function_stats scenario = Ok s) /\
  (timings_within_double_range [null_execution_time] /\
   ~ timings_are_numbers [null_execution_time] /\
   calculate_function_stats [null_execution_time] = Raise TypeError).
Proof.
  assert (Hr : timings_within_double_range scenario).
  { apply timings_within_double_range_values.
    split; [reflexivity | intros []; vm_compute; reflexivity]. }
  assert (H : timings_are_numbers scenario).
  { apply timings_are_numbers_values. intros []; vm_compute; reflexivity. }
  assert (Hr' : timings_within_double_range [null_execution_time]).
  { apply timings_within_double_range_values.
    split; [reflexivity | intros []; vm_compute; reflexivity]. }
  assert (H' : ~ timings_are_numbers [null_execution_time]).
  { intros Hn.
    pose proof (proj1 (timings_are_numbers_values _) Hn Execution) as Hx.
    vm_compute in Hx. discriminate Hx. }
  split.
  - split; [exact Hr|]. split; [exact H|].
    exact (proj1 (returns_iff_timings_are_numbers scenario Hr) H).
  - split; [exact Hr'|]. split; [exact H'|].
    exact (proj2 (returns_iff_timings_are_numbers [null_execution_time] Hr') H').
Defined.

(** *** Average, minimum and maximum of a timing field *)






(** *** Percentage differences *)

Lemma percentage_diff_numbers (gvisor_stats docker_stats : record)
    (key : string) (c g : pyval) :
  docker_stats !! key = Some c -> gvisor_stats !! key = Some g ->
  is_number c = true -> is_number g = true ->
  if Qeq_bool (value_Q c) 0
  then percentage_diff gvisor_stats docker_stats key = Ok (VInt 0)
  else exists q,
      percentage_diff gvisor_stats docker_stats key = Ok (VFloat q) /\
      (q == (value_Q g - value_Q c) / value_Q c * 100)%Q.
Proof.
  intros Hc Hg Hcnum Hgnum. unfold percentage_diff, subscript.
  rewrite Hc, Hg. cbn [bind]. rewrite (truthy_number c Hcnum).
  destruct (Qeq_bool (value_Q c) 0) eqn:Hzero; cbn [negb]; [reflexivity|].
  destruct (py_sub_numbers g c Hgnum Hcnum) as (d & -> & Hdnum & Hdval).
  cbn [bind]. rewrite (py_truediv_numbers d c Hdnum Hcnum), Hzero.
  cbn [bind]. rewrite py_mul_float by reflexivity.
  eexists. split; [reflexivity|].
  rewrite !Qred_correct, Hdval. reflexivity.
Qed.

(** The computation never divides by zero. *)
Lemma percentage_diff_cases (gvisor_stats docker_stats : record) (key : string) :
  (exists v, percentage_diff gvisor_stats docker_stats key = Ok v) \/
  percentage_diff gvisor_stats docker_stats key = Raise KeyError \/
  percentage_diff gvisor_stats docker_stats key = Raise TypeError.
Proof.
  destruct (docker_stats !! key) as [c|] eqn:Hc.
  2: { right. left. unfold percentage_diff, subscript. by rewrite Hc. }
  destruct (truthy c) eqn:Hc_true.
  2: { left. exists (VInt 0). unfold percentage_diff, subscript.
       rewrite Hc. cbn [bind]. by rewrite Hc_true. }
  destruct (gvisor_stats !! key) as [g|] eqn:Hg.
  2: { right. left. unfold percentage_diff, subscript.
       rewrite Hc, Hg. cbn [bind]. by rewrite Hc_true. }
  destruct (is_number c) eqn:Hcnum, (is_number g) eqn:Hgnum.
  - left. pose proof (percentage_diff_numbers _ _ _ _ _ Hc Hg Hcnum Hgnum) as H.
    destruct (Qeq_bool (value_Q c) 0); [eauto|].
    destruct H as (q & Hq & _). eauto.
  - right. right. unfold percentage_diff, subscript.
    rewrite Hc, Hg. cbn [bind]. rewrite Hc_true.
    unfold py_sub. rewrite arith_not_number by auto. reflexivity.
  - right. right. unfold percentage_diff, subscript.
    rewrite Hc, Hg. cbn [bind]. rewrite Hc_true.
    unfold py_sub. rewrite arith_not_number by auto. reflexivity.
  - right. right. unfold percentage_diff, subscript.
    rewrite Hc, Hg. cbn [bind]. rewrite Hc_true.
    unfold py_sub. rewrite arith_not_number by auto. reflexivity.
Qed.

Lemma comparison_diffs_Ok (docker_stats gvisor_stats : record)
    (i e t : pyval) :
  comparison_diffs docker_stats gvisor_stats = Ok (i, e, t) <->
  percentage_diff gvisor_stats docker_stats "avg_init_time_ms" = Ok i /\
  percentage_diff gvisor_stats docker_stats "avg_exec_time_ms" = Ok e /\
  percentage_diff gvisor_stats docker_stats "avg_total_time_ms" = Ok t.
Proof.
  unfold comparison_diffs. split.
  - intros H. bind_inv H. by injection H as <- <- <-.
  - intros (-> & -> & ->). reflexivity.
Qed.



(** C7.  When the docker average of a metric is exactly zero, the
    percentage difference of that metric is 0, whatever the gvisor
    value; no input makes the computation divide by zero; and each of
    the three differences is decided by its own metric alone. *)
Theorem zero_baseline_gives_zero :
  (forall (docker_stats gvisor_stats : record) (key : string) (c : pyval),
     docker_stats !! key = Some c -> is_number c = true ->
     (value_Q c == 0)%Q ->
     percentage_diff gvisor_stats docker_stats key = Ok (VInt 0)) /\
  (forall (docker_stats gvisor_stats : record) (key : string),
     percentage_diff gvisor_stats docker_stats key <> Raise ZeroDivisionError) /\
  (forall docker_stats gvisor_stats : record,
     comparison_diffs docker_stats gvisor_stats <> Raise ZeroDivisionError) /\
  (forall (docker_stats gvisor_stats : record) (i e t : pyval),
     comparison_diffs docker_stats gvisor_stats = Ok (i, e, t) <->
     percentage_diff gvisor_stats docker_stats "avg_init_time_ms" = Ok i /\
     percentage_diff gvisor_stats docker_stats "avg_exec_time_ms" = Ok e /\
     percentage_diff gvisor_stats docker_stats "avg_total_time_ms" = Ok t) /\
  comparison_diffs (averages (VInt 0) (VInt 100) (VFloat 0))
                   (averages (VInt 5) (VInt 150) (VInt 7))
  = Ok (VInt 0, VFloat 50, VInt 0).
Proof.
  assert (Hnever : forall (docker_stats gvisor_stats : record) (key : string),
    percentage_diff gvisor_stats docker_stats key <> Raise ZeroDivisionError).
  { intros d g key.
    destruct (percentage_diff_cases g d key) as [[v ->]|[-> | ->]];
      discriminate. }
  split; [|split; [exact Hnever|split; [|split]]].
  - intros docker_stats gvisor_stats key c Hc Hcnum Hzero.
    unfold percentage_diff, subscript. rewrite Hc. cbn [bind].
    rewrite (truthy_number c Hcnum).
    apply Qeq_bool_iff in Hzero. by rewrite Hzero.
  - intros d g. unfold comparison_diffs.
    destruct (percentage_diff g d "avg_init_time_ms") as [i|x] eqn:Hi;
      [|intros [= ->]; by apply (Hnever d g "avg_init_time_ms")].
    destruct (percentage_diff g d "avg_exec_time_ms") as [e|x] eqn:He;
      [|intros [= ->]; by apply (Hnever d g "avg_exec_time_ms")].
    destruct (percentage_diff g d "avg_total_time_ms") as [t|x] eqn:Ht;
      [|intros [= ->]; by apply (Hnever d g "avg_total_time_ms")].
    discriminate.
  - apply comparison_diffs_Ok.
  - vm_compute. reflexivity.
Qed.

Lemma zero_baseline_gives_zero_witness :
  percentage_diff (averages (VInt 5) (VInt 150) (VInt 7))
                  (averages (VInt 0) (VInt 100) (VFloat 0))
                  "avg_total_time_ms" = Ok (VInt 0).
Proof.
  apply (proj1 zero_baseline_gives_zero
           (averages (VInt 0) (VInt 100) (VFloat 0))
           (averages (VInt 5) (VInt 150) (VInt 7))
           "avg_total_time_ms" (VFloat 0)).
  - vm_compute. reflexivity.
  - reflexivity.
  - reflexivity.
Defined.

(** * Further properties: the callers *)

(** ** Loops *)

Lemma for_each_Ok {A B : Type} (f : A -> result B) (items : list A)
    (ys : list B) :
  for_each f items = Ok ys <-> Forall2 (fun x y => f x = Ok y) items ys.
Proof.
  revert ys. induction items as [|x items IH]; intros ys; simpl.
  - split.
    + intros [= <-]. constructor.
    + intros H. inversion H. reflexivity.
  - split.
    + intros H. bind_inv H. injection H as <-.
      constructor; [assumption|]. by apply IH.
    + intros H. inversion H as [|x' y items' ys' Hy Hrest]; subst.
      rewrite Hy. simpl. apply IH in Hrest. rewrite Hrest. reflexivity.
Qed.

Lemma for_each_length {A B : Type} (f : A -> result B) (items : list A)
    (ys : list B) :
  for_each f items = Ok ys -> length ys = length items.
Proof. intros H%for_each_Ok. symmetry. exact (Forall2_length _ _ _ H). Qed.

(** The loop raises what its first failing item raises. *)
Lemma for_each_Raise {A B : Type} (f : A -> result B) (items : list A)
    (e : exn) :
  for_each f items = Raise e <->
  exists before x after,
    items = before ++ x :: after /\
    (forall y, y ∈ before -> exists z, f y = Ok z) /\
    f x = Raise e.
Proof.
  induction items as [|x items IH]; simpl.
  { split; [discriminate|].
    intros (before & y & after & H & _). by destruct before. }
  assert (Hsplit :
    (exists before x' after,
        x :: items = before ++ x' :: after /\
        (forall y, y ∈ before -> exists z, f y = Ok z) /\ f x' = Raise e) <->
    f x = Raise e \/
    ((exists z, f x = Ok z) /\
     exists before x' after,
        items = before ++ x' :: after /\
        (forall y, y ∈ before -> exists z, f y = Ok z) /\ f x' = Raise e)).
  { split.
    - intros ([|y before] & x' & after & Heq & Hbefore & Hraise).
      + injection Heq as -> ->. by left.
      + injection Heq as -> ->. right. split.
        * apply Hbefore, list_elem_of_here.
        * exists before, x', after. repeat split; [|assumption].
          intros y' Hy'. apply Hbefore. by apply list_elem_of_further.
    - intros [Hx|[Hx (before & x' & after & -> & Hbefore & Hraise)]].
      + exists [], x, items. repeat split; [|assumption].
        intros y Hy. by apply elem_of_nil in Hy.
      + exists (x :: before), x', after. repeat split; [|assumption].
        intros y [->|Hy]%elem_of_cons; auto. }
  rewrite Hsplit, <- IH. clear Hsplit IH.
  destruct (f x) as [z|e1]; simpl.
  - destruct (for_each f items) as [ys|e2]; simpl.
    + split; [discriminate|]. intros [H|[_ H]]; discriminate.
    + split; [intros [= ->]; right; eauto|].
      intros [H|[_ H]]; [discriminate | exact H].
  - split; [intros [= ->]; by left|].
    intros [[= ->]|[[z Hz] _]]; [reflexivity | discriminate].
Qed.

(** ** One metric *)

Lemma subscript_Ok (e : record) (key : string) (v : pyval) :
  subscript e key = Ok v <-> e !! key = Some v.
Proof. unfold subscript. destruct (e !! key); split; congruence. Qed.

Lemma convert_metric_cases (metric : record) :
  (exists e, convert_metric metric = Ok e) \/
  convert_metric metric = Raise KeyError.
Proof.
  unfold convert_metric, subscript.
  repeat match goal with
         | |- context [metric !! ?k] =>
             destruct (metric !! k) eqn:?; cbn [bind]; [|by right]
         end.
  left. by eexists.
Qed.

Lemma convert_metric_Ok (metric e : record) :
  convert_metric metric = Ok e ->
  exists id function_name runtime language initialization_time_ms
         execution_time_ms total_time_ms cold_start error_message timestamp
         status,
    metric !! "id" = Some id /\
    metric !! "function_name" = Some function_name /\
    metric !! "runtime" = Some runtime /\
    metric !! "language" = Some language /\
    metric !! "initialization_time_ms" = Some initialization_time_ms /\
    metric !! "execution_time_ms" = Some execution_time_ms /\
    metric !! "total_time_ms" = Some total_time_ms /\
    metric !! "cold_start" = Some cold_start /\
    metric !! "error_message" = Some error_message /\
    metric !! "timestamp" = Some timestamp /\
    metric !! "status" = Some status /\
    e = {[ "id" := id;
           "function_name" := function_name;
           "runtime" := runtime;
           "language" := language;
           "initialization_time_ms" := initialization_time_ms;
           "execution_time_ms" := execution_time_ms;
           "total_time_ms" := total_time_ms;
           "cold_start" := cold_start;
           "error" := error_message;
           "timestamp" := timestamp;
           "success" := VBool (eq_str status "success") ]}.
Proof.
  unfold convert_metric. intros H. bind_inv H. injection H as <-.
  repeat match goal with
         | Hs : subscript _ _ = Ok _ |- _ => apply subscript_Ok in Hs
         end.
  do 11 eexists. repeat split; eassumption.
Qed.

Lemma convert_metric_complete (metric : record) :
  (forall k, k ∈ metric_keys -> is_Some (metric !! k)) <->
  exists e, convert_metric metric = Ok e.
Proof.
  split.
  - intros Hall.
    assert (Hk : Forall (fun k => is_Some (metric !! k)) metric_keys)
      by (by apply Forall_forall).
    unfold metric_keys in Hk.
    repeat match goal with
           | H : Forall _ (_ :: _) |- _ =>
               apply Forall_cons in H as [[? ?] H]
           end.
    unfold convert_metric, subscript.
    repeat match goal with
           | H : metric !! _ = Some _ |- _ => rewrite H; clear H
           end.
    by eexists.
  - intros [e He]. apply convert_metric_Ok in He
      as (? & ? & ? & ? & ? & ? & ? & ? & ? & ? & ? &
          H1 & H2 & H3 & H4 & H5 & H6 & H7 & H8 & H9 & H10 & H11 & _).
    intros k Hk. unfold metric_keys in Hk.
    repeat (apply elem_of_cons in Hk as [->|Hk]; [by eexists|]).
    by apply elem_of_nil in Hk.
Qed.

(** X1.  [convert_metric] returns the new dict when the metric has the
    eleven keys it reads, and raises [KeyError] when one of them is
    missing. *)
Theorem convert_metric_needs_every_key (metric : record) :
  ((forall k, k ∈ metric_keys -> is_Some (metric !! k)) ->
   exists e, convert_metric metric = Ok e) /\
  ((exists k, k ∈ metric_keys /\ metric !! k = None) ->
   convert_metric metric = Raise KeyError).
Proof.
  split; [apply convert_metric_complete|].
  intros (k & Hk & Hnone).
  destruct (convert_metric_cases metric) as [Hok|Hraise]; [|exact Hraise].
  destruct (proj2 (convert_metric_complete metric) Hok k Hk) as [v Hv].
  congruence.
Qed.

Lemma convert_metric_needs_every_key_witness :
  (forall k, k ∈ metric_keys -> is_Some (sample_metric !! k)) /\
  exists e, convert_metric sample_metric = Ok e.
Proof.
  assert (H : forall k, k ∈ metric_keys -> is_Some (sample_metric !! k)).
  { intros k Hk. unfold metric_keys in Hk.
    repeat (apply elem_of_cons in Hk as [->|Hk];
            [eexists; vm_compute; reflexivity|]).
    by apply elem_of_nil in Hk. }
  split; [exact H|].
  exact (proj1 (convert_metric_needs_every_key sample_metric) H).
Defined.

Lemma convert_metric_lookups (metric e : record) :
  convert_metric metric = Ok e ->
  dom e = list_to_set execution_keys /\
  (forall k, k ∈ carried_keys -> e !! k = metric !! k) /\
  e !! "error" = metric !! "error_message" /\
  e !! "success" = Some (VBool (status_is_success metric)) /\
  is_successful e = status_is_success metric /\
  e !! "status" = None.
Proof.
  intros (id & function_name & runtime & language & init & exec & total &
          cold_start & error_message & timestamp & status &
          H1 & H2 & H3 & H4 & H5 & H6 & H7 & H8 & H9 & H10 & H11 & ->)
         %convert_metric_Ok.
  unfold status_is_success, is_successful, get. rewrite H11.
  split; [|split; [|split; [|split; [|split]]]].
  - rewrite !dom_insert_L, dom_singleton_L. unfold execution_keys. simpl.
    set_solver.
  - intros k Hk. unfold carried_keys in Hk.
    repeat (apply elem_of_cons in Hk as [->|Hk]; [by simplify_map_eq|]).
    by apply elem_of_nil in Hk.
  - by simplify_map_eq.
  - by simplify_map_eq.
  - by simplify_map_eq.
  - by simplify_map_eq.
Qed.

(** X2.  The dict built for a metric has exactly eleven keys: nine carry
    the metric's value under the same key, [error] carries the metric's
    [error_message], and [success] is the bool telling whether the
    metric's [status] is the string ["success"]; so the record is
    successful for the summary exactly in that case, and [status] itself
    is not a key of the new dict. *)
Theorem convert_metric_fields (metric e : record) :
  convert_metric metric = Ok e ->
  dom e = list_to_set execution_keys /\
  (forall k, k ∈ carried_keys -> e !! k = metric !! k) /\
  e !! "error" = metric !! "error_message" /\
  e !! "success" = Some (VBool (status_is_success metric)) /\
  is_successful e = status_is_success metric /\
  e !! "status" = None.
Proof. apply convert_metric_lookups. Qed.

Lemma convert_metric_fields_witness :
  convert_metric sample_metric = Ok sample_execution /\
  sample_execution !! "error" = sample_metric !! "error_message".
Proof.
  split; [vm_compute; reflexivity|].
  refine (proj1 (proj2 (proj2 (convert_metric_fields
                                 sample_metric sample_execution _)))).
  vm_compute. reflexivity.
Defined.

(** ** From the metrics to the summary *)

Lemma convert_metrics_cases (metrics : list record) :
  (exists executions, for_each convert_metric metrics = Ok executions) \/
  for_each convert_metric metrics = Raise KeyError.
Proof.
  destruct (for_each convert_metric metrics) as [es|x] eqn:H; [eauto|].
  right. apply for_each_Raise in H as (_ & m & _ & _ & _ & Hm).
  destruct (convert_metric_cases m) as [[e He]|Hk]; congruence.
Qed.

Lemma convert_metrics_complete (metrics : list record) :
  (forall m k, m ∈ metrics -> k ∈ metric_keys -> is_Some (m !! k)) <->
  exists executions, for_each convert_metric metrics = Ok executions.
Proof.
  split.
  - intros Hall. destruct (convert_metrics_cases metrics) as [H|H]; [exact H|].
    apply for_each_Raise in H as (before & m & after & -> & _ & Hm).
    assert (Hin : m ∈ before ++ m :: after)
      by (rewrite elem_of_app, elem_of_cons; auto).
    destruct (proj1 (convert_metric_complete m) (fun k => Hall m k Hin))
      as [e He].
    congruence.
  - intros [executions H%for_each_Ok] m k Hm.
    apply (convert_metric_complete m).
    induction H as [|m' e ms es Hme _ IH]; [by apply elem_of_nil in Hm|].
    apply elem_of_cons in Hm as [->|Hm]; eauto.
Qed.

Lemma Forall2_count_if (R : record -> record -> Prop)
    (c1 c2 : record -> bool) (l1 l2 : list record) :
  Forall2 R l1 l2 -> (forall x y, R x y -> c1 x = c2 y) ->
  count_if c1 l1 = count_if c2 l2.
Proof.
  intros H Hc. induction H as [|x y l1 l2 Hxy _ IH]; [reflexivity|].
  by rewrite !count_if_cons, (Hc x y Hxy), IH.
Qed.

(** Every metric gives one value to each timing field. *)
Lemma converted_values (metrics executions : list record) (key : string) :
  for_each convert_metric metrics = Ok executions ->
  key ∈ carried_keys ->
  values_of key executions = map (fun m => get m key VNone) metrics /\
  omap (fun m : record => m !! key) metrics
  = map (fun m => get m key VNone) metrics.
Proof.
  intros H%for_each_Ok Hkey. unfold values_of.
  induction H as [|m e ms es Hme _ [IH1 IH2]]; [done|].
  destruct (convert_metric_lookups m e Hme) as (_ & Hcarried & _).
  assert (is_Some (m !! key)) as [v Hv].
  { apply (proj2 (convert_metric_complete m) (ex_intro _ e Hme)).
    unfold carried_keys in Hkey. unfold metric_keys.
    repeat (apply elem_of_cons in Hkey as [->|Hkey]; [set_solver|]).
    by apply elem_of_nil in Hkey. }
  simpl. rewrite (Hcarried key Hkey). unfold get at 1 3. rewrite Hv.
  split; f_equal; assumption.
Qed.

Lemma field_key_carried (f : timing_field) : field_key f ∈ carried_keys.
Proof. destruct f; unfold carried_keys; simpl; set_solver. Qed.

Lemma converted_timings (metrics executions : list record) :
  for_each convert_metric metrics = Ok executions ->
  timings_are_numbers executions <-> timings_are_numbers metrics.
Proof.
  intros H. rewrite !timings_are_numbers_values. unfold values_of at 2.
  split; intros Hnum f; specialize (Hnum f);
    destruct (converted_values _ _ _ H (field_key_carried f)) as [H1 H2];
    unfold values_of in *; congruence.
Qed.

Lemma metrics_page_stats_unfold (metrics : list record) :
  metrics <> [] ->
  metrics_page_stats (Some metrics) =
  let* executions := for_each convert_metric metrics in
  let* stats := calculate_function_stats executions in
  Ok (Some stats).
Proof. by destruct metrics. Qed.

Lemma sample_metrics_complete :
  forall m k, m ∈ sample_metrics -> k ∈ metric_keys -> is_Some (m !! k).
Proof.
  intros m k Hm Hk. unfold sample_metrics in Hm. unfold metric_keys in Hk.
  repeat (apply elem_of_cons in Hm as [->|Hm]);
    [| |by apply elem_of_nil in Hm];
    (repeat (apply elem_of_cons in Hk as [->|Hk];
             [eexists; vm_compute; reflexivity|]);
     by apply elem_of_nil in Hk).
Defined.

Lemma sample_metrics_numbers : timings_are_numbers sample_metrics.
Proof.
  apply timings_are_numbers_values. intros []; vm_compute; reflexivity.
Defined.

(** X3.  For a non-empty list of metrics whose timing fields hold no
    int beyond what a double represents exactly, the page raises
    [KeyError] when some metric lacks one of the eleven keys; when none
    does, it computes a summary if the three timing values of every
    metric are numbers, and raises [TypeError] if one of them is not (a
    [null] time of a failed execution, say).  (The hypothesis on the
    ints keeps to the inputs on which Python raises no
    [OverflowError].) *)
Theorem metrics_page_stats_outcome (metrics : list record) :
  metrics <> [] ->
  timings_within_double_range metrics ->
  ((exists m k, m ∈ metrics /\ k ∈ metric_keys /\ m !! k = None) ->
   metrics_page_stats (Some metrics) = Raise KeyError) /\
  ((forall m k, m ∈ metrics -> k ∈ metric_keys -> is_Some (m !! k)) ->
   (timings_are_numbers metrics ->
    exists s, metrics_page_stats (Some metrics) = Ok (Some s)) /\
   (~ timings_are_numbers metrics ->
    metrics_page_stats (Some metrics) = Raise TypeError)).
Proof.
  intros Hne _. rewrite (metrics_page_stats_unfold _ Hne). split.
  - intros (m & k & Hm & Hk & Hnone).
    destruct (convert_metrics_cases metrics) as [Hok| ->]; [|reflexivity].
    destruct (proj2 (convert_metrics_complete metrics) Hok m k Hm Hk)
      as [v Hv].
    congruence.
  - intros Hall.
    destruct (proj1 (convert_metrics_complete metrics) Hall)
      as [executions Hex].
    rewrite Hex. cbn [bind]. split.
    + intros Hnum%(converted_timings _ _ Hex).
      destruct (calculate_function_stats_returns _ Hnum) as [s ->].
      by exists s.
    + intros Hnot.
      destruct (calculate_function_stats_cases executions) as [[s Hs]| ->];
        [|reflexivity].
      exfalso. apply Hnot, (converted_timings _ _ Hex).
      exact (calculate_function_stats_Ok_numbers _ _ Hs).
Qed.

Lemma sample_metrics_within_range : timings_within_double_range sample_metrics.
Proof.
  apply timings_within_double_range_values.
  split; [reflexivity | intros []; vm_compute; reflexivity].
Defined.

Lemma metrics_page_stats_outcome_witness :
  sample_metrics <> [] /\
  timings_within_double_range sample_metrics /\
  exists s, metrics_page_stats (Some sample_metrics) = Ok (Some s).
Proof.
  split; [discriminate|]. split; [exact sample_metrics_within_range|].
  refine (proj1 (proj2 (metrics_page_stats_outcome sample_metrics _
                          sample_metrics_within_range)
                   sample_metrics_complete) sample_metrics_numbers).
  discriminate.
Defined.

Lemma metrics_page_stats_Some (metrics_data : option (list record))
    (s : stats) :
  metrics_page_stats metrics_data = Ok (Some s) ->
  exists metrics executions,
    metrics_data = Some metrics /\ metrics <> [] /\
    for_each convert_metric metrics = Ok executions /\
    executions <> [] /\ length executions = length metrics /\
    calculate_function_stats executions = Ok s.
Proof.
  destruct metrics_data as [[|m ms]|]; try discriminate.
  rewrite metrics_page_stats_unfold by done. intros H. bind_inv H.
  injection H as ->. exists (m :: ms), r. repeat split; try done.
  - apply (for_each_length convert_metric) in Hstep. by destruct r.
  - by apply (for_each_length convert_metric).
Qed.

(** X4.  The page shows no summary exactly when the metrics are [None]
    or an empty list.  A summary it shows is never the all-zero one of
    the empty list: it counts as many executions as there are metrics,
    at least one, and its success rate is a float. *)
Theorem metrics_page_never_summarises_nothing
    (metrics_data : option (list record)) :
  (metrics_page_stats metrics_data = Ok None <->
   metrics_data = None \/ metrics_data = Some []) /\
  (forall s, metrics_page_stats metrics_data = Ok (Some s) ->
     exists metrics,
       metrics_data = Some metrics /\
       total_executions s = len metrics /\ 1 <= total_executions s /\
       exists q, success_rate s = VFloat q).
Proof.
  split.
  - split.
    + destruct metrics_data as [[|m ms]|]; auto.
      rewrite metrics_page_stats_unfold by done. intros H. bind_inv H.
      discriminate.
    + by intros [-> | ->].
  - intros s (metrics & executions & -> & Hne & Hex & Hne' & Hlen & Hs)
             %metrics_page_stats_Some.
    exists metrics. split; [reflexivity|].
    destruct (stats_counts _ _ Hs) as (-> & _).
    assert (len executions = len metrics) as -> by (unfold len; lia).
    split; [reflexivity|]. split.
    + apply len_nonempty in Hne. lia.
    + rewrite (stats_success_rate _ _ Hne' Hs). eauto.
Qed.

Lemma metrics_page_never_summarises_nothing_witness :
  metrics_page_stats (Some sample_metrics) = Ok (Some sample_metrics_summary) /\
  exists metrics,
    Some sample_metrics = Some metrics /\
    total_executions sample_metrics_summary = len metrics /\
    1 <= total_executions sample_metrics_summary /\
    exists q, success_rate sample_metrics_summary = VFloat q.
Proof.
  split; [vm_compute; reflexivity|].
  apply (proj2 (metrics_page_never_summarises_nothing (Some sample_metrics))
           sample_metrics_summary).
  vm_compute. reflexivity.
Defined.

(** X5.  In a summary the page shows, every metric gives its value to
    each timing field: the average is a float, the mean of as many
    values as there are metrics, and the minimum and maximum are values
    of metrics that bound the value of every metric.  No record is left
    out as lacking the field. *)
Theorem metrics_page_uses_every_metric
    (metrics : list record) (s : stats) (f : timing_field) :
  metrics_page_stats (Some metrics) = Ok (Some s) ->
  let times := map (fun m => get m (field_key f) VNone) metrics in
  (exists q, avg_of f s = VFloat q /\
             (q == sum_Q times / inject_Z (len metrics))%Q) /\
  min_of f s ∈ times /\ max_of f s ∈ times /\
  (forall m, m ∈ metrics ->
     (value_Q (min_of f s) <= value_Q (get m (field_key f) VNone)
      <= value_Q (max_of f s))%Q).
Proof.
  intros (ms & executions & [= <-] & Hne & Hex & Hne' & Hlen & Hs)
         %metrics_page_stats_Some times.
  destruct (converted_values _ _ _ Hex (field_key_carried f)) as [Hvals _].
  destruct (stats_field executions s f Hs) as (Ha & Hlo & Hhi).
  rewrite Hvals in Ha, Hlo, Hhi. fold times in Ha, Hlo, Hhi.
  pose proof (avg_or_zero_Ok_numbers _ _ Ha) as Hnum.
  assert (Htimes : times <> []) by (subst times; by destruct metrics).
  destruct (avg_or_zero_numbers times Htimes Hnum) as (q & Hq & Hqval).
  destruct (min_or_zero_numbers times Htimes Hnum) as (lo & Hlo' & Hloin & Hlole).
  destruct (max_or_zero_numbers times Htimes Hnum) as (hi & Hhi' & Hhiin & Hhile).
  assert (avg_of f s = VFloat q) as -> by congruence.
  assert (min_of f s = lo) as -> by congruence.
  assert (max_of f s = hi) as -> by congruence.
  split; [|split; [|split]]; try assumption.
  - exists q. split; [reflexivity|]. rewrite Hqval.
    replace (len times) with (len metrics); [reflexivity|].
    unfold len, times. by rewrite length_map.
  - intros m Hm.
    assert (get m (field_key f) VNone ∈ times).
    { unfold times. apply list_elem_of_fmap. by exists m. }
    split; auto.
Qed.

Lemma metrics_page_uses_every_metric_witness :
  metrics_page_stats (Some sample_metrics) = Ok (Some sample_metrics_summary) /\
  min_of Execution sample_metrics_summary
    ∈ map (fun m => get m (field_key Execution) VNone) sample_metrics.
Proof.
  split; [vm_compute; reflexivity|].
  refine (proj1 (proj2 (metrics_page_uses_every_metric
                          sample_metrics sample_metrics_summary Execution _))).
  vm_compute. reflexivity.
Defined.

(** X6.  In a summary the page computes, the success rate is 100 times
    the share of metrics whose [status] is the string ["success"] (any
    other status, whatever its case or type, counts as a failure), the
    cold count is the number of metrics whose [cold_start] is a true
    value and the warm count the number of those whose [cold_start] is
    a false value, [None] included: the default for a missing
    [cold_start] is never used, every metric having the key. *)
Theorem metrics_page_counts (metrics : list record) (s : stats) :
  metrics_page_stats (Some metrics) = Ok (Some s) ->
  (value_Q (success_rate s)
   == 100 * inject_Z (len (filter (fun m => status_is_success m = true) metrics))
      / inject_Z (len metrics))%Q /\
  (forall m, m ∈ metrics -> is_Some (m !! "cold_start")) /\
  cold (warm_vs_cold s)
    = len (filter (fun m => cold_start_present_and_truthy m = true) metrics) /\
  warm (warm_vs_cold s)
    = len (filter (fun m => counts_as_warm m = true) metrics).
Proof.
  intros (ms & executions & [= <-] & Hne & Hex & Hne' & Hlen & Hs)
         %metrics_page_stats_Some.
  pose proof (proj1 (for_each_Ok _ _ _) Hex) as Hall.
  assert (Hpresent : forall m, m ∈ metrics -> is_Some (m !! "cold_start")).
  { intros m Hm.
    apply (proj2 (convert_metrics_complete metrics) (ex_intro _ _ Hex) m);
      [assumption|].
    unfold metric_keys. set_solver. }
  assert (Hcold : forall m e, convert_metric m = Ok e ->
            exists v, m !! "cold_start" = Some v /\
                      get e "cold_start" (VBool true) = v).
  { intros m e Hme.
    destruct (convert_metric_lookups m e Hme) as (_ & Hcarried & _).
    destruct (proj2 (convert_metric_complete m) (ex_intro _ e Hme)
                "cold_start") as [v Hv].
    { unfold metric_keys. set_solver. }
    exists v. split; [exact Hv|].
    unfold get. rewrite (Hcarried "cold_start"), Hv; [reflexivity|].
    unfold carried_keys. set_solver. }
  destruct (stats_counts _ _ Hs) as (_ & _ & _ & Hw & Hc).
  split; [|split; [exact Hpresent|split]].
  - rewrite (stats_success_rate _ _ Hne' Hs).
    change (value_Q (VFloat ?q)) with q.
    assert (Hcount : successful_count executions
              = len (filter (fun m => status_is_success m = true) metrics)).
    { unfold successful_count. rewrite <- count_if_filter. symmetry.
      apply (Forall2_count_if _ _ _ _ _ Hall). intros m e Hme.
      destruct (convert_metric_lookups m e Hme) as (_ & _ & _ & _ & Hsucc & _).
      symmetry. exact Hsucc. }
    rewrite <- Hcount.
    assert (len executions = len metrics) as <- by (unfold len; lia).
    apply (percentage_bounds (successful_count executions) (len executions)).
    + apply count_if_bounds.
    + by apply len_nonempty.
    + apply Qred_correct.
  - rewrite Hc, <- count_if_filter. symmetry.
    apply (Forall2_count_if _ _ _ _ _ Hall). intros m e Hme.
    destruct (Hcold m e Hme) as (v & Hv & ->).
    unfold cold_start_present_and_truthy. by rewrite Hv.
  - rewrite Hw, <- count_if_filter. symmetry.
    apply (Forall2_count_if _ _ _ _ _ Hall). intros m e Hme.
    destruct (Hcold m e Hme) as (v & Hv & ->).
    unfold counts_as_warm. by rewrite Hv.
Qed.

Lemma metrics_page_counts_witness :
  metrics_page_stats (Some sample_metrics) = Ok (Some sample_metrics_summary) /\
  forall m, m ∈ sample_metrics -> is_Some (m !! "cold_start").
Proof.
  split; [vm_compute; reflexivity|].
  refine (proj1 (proj2 (metrics_page_counts
                          sample_metrics sample_metrics_summary _))).
  vm_compute. reflexivity.
Defined.

(** ** The API helpers and the pages *)

Lemma function_names_cases (functions : list record) :
  (exists names, function_names functions = Ok names /\
                 length names = length functions) \/
  function_names functions = Raise KeyError.
Proof.
  unfold function_names.
  destruct (for_each (fun func => subscript func "name") functions)
    as [names|x] eqn:H.
  - left. exists names. split; [reflexivity|].
    exact (for_each_length _ _ _ H).
  - right. apply for_each_Raise in H as (_ & func & _ & _ & _ & Hf).
    unfold subscript in Hf. destruct (func !! "name"); congruence.
Qed.

Lemma function_names_complete (functions : list record) :
  (forall func, func ∈ functions -> is_Some (func !! "name")) <->
  exists names, function_names functions = Ok names.
Proof.
  unfold function_names. split.
  - intros Hall.
    destruct (for_each (fun func => subscript func "name") functions)
      as [names|x] eqn:H; [eauto|].
    apply for_each_Raise in H as (before & func & after & -> & _ & Hf).
    destruct (Hall func) as [v Hv].
    { rewrite elem_of_app, elem_of_cons. auto. }
    unfold subscript in Hf. rewrite Hv in Hf. discriminate.
  - intros [names H%for_each_Ok] func Hfunc.
    induction H as [|func' name fs ns Hn _ IH];
      [by apply elem_of_nil in Hfunc|].
    apply elem_of_cons in Hfunc as [->|Hfunc]; [|auto].
    apply subscript_Ok in Hn. eauto.
Qed.

(** X7.  When the request for the functions fails in any way (an
    exception, a status other than 200, a body that does not decode),
    [get_functions] reports one error and the page goes on as if there
    were no function at all.  After a good response no error is
    reported, and the page offers one name per function, or raises
    [KeyError] if some function has no [name]. *)
Theorem listed_functions_outcome (requests_get : string -> http_outcome) :
  ((forall text body,
      requests_get (API_BASE_URL +:+ "/functions/")
      <> Response 200 text (inr body)) ->
   listed_functions requests_get = Ok None /\
   exists message, snd (get_functions requests_get) = [message]) /\
  (forall text body,
     requests_get (API_BASE_URL +:+ "/functions/")
     = Response 200 text (inr body) ->
     snd (get_functions requests_get) = [] /\
     ((forall func, func ∈ body -> is_Some (func !! "name")) ->
      exists names,
        function_names body = Ok names /\ length names = length body /\
        listed_functions requests_get
        = Ok (match body with [] => None | _ => Some names end)) /\
     ((exists func, func ∈ body /\ func !! "name" = None) ->
      listed_functions requests_get = Raise KeyError)).
Proof.
  unfold listed_functions, get_functions. split.
  - intros Hbad.
    destruct (requests_get (API_BASE_URL +:+ "/functions/"))
      as [reason|status_code text [reason|body]]; simpl.
    + eauto.
    + destruct (status_code =? 200); simpl; eauto.
    + destruct (Z.eqb_spec status_code 200) as [->|_]; simpl; [|eauto].
      by destruct (Hbad text body).
  - intros text body ->. simpl. split; [reflexivity|]. split.
    + intros Hall.
      destruct (proj1 (function_names_complete body) Hall) as [names Hnames].
      destruct (function_names_cases body) as [(names' & H' & Hlen)|H'];
        [|congruence].
      assert (names' = names) as -> by congruence.
      exists names. rewrite Hnames. simpl. repeat split; [assumption|].
      destruct names, body; try discriminate; reflexivity.
    + intros (func & Hfunc & Hnone).
      destruct (function_names_cases body) as [(names & H & _)| ->];
        [|reflexivity].
      destruct (proj2 (function_names_complete body) (ex_intro _ names H)
                  func Hfunc) as [v Hv].
      congruence.
Qed.

Lemma listed_functions_outcome_witness :
  listed_functions (fun _ => RequestFails "connection refused") = Ok None /\
  exists message,
    snd (get_functions (fun _ => RequestFails "connection refused")) = [message].
Proof.
  apply (proj1 (listed_functions_outcome
                  (fun _ => RequestFails "connection refused"))).
  intros text body. discriminate.
Defined.

(** X8.  The metrics page shows a summary only for a selection that is
    not the empty string, after a response with status 200 whose body
    decodes to a list that is not empty; the summary then counts one
    execution per metric of the body.  When the request fails in any way
    the page shows no summary, raises nothing, and [get_function_metrics]
    reports one error. *)
Theorem metrics_page_needs_a_good_response
    (requests_get : string -> http_outcome) (selected_function : string) :
  (forall s,
     metrics_page requests_get selected_function = Ok (Some s) ->
     selected_function <> "" /\
     exists text body,
       requests_get (API_BASE_URL +:+ "/metrics/functions/" +:+ selected_function)
       = Response 200 text (inr body) /\
       body <> [] /\ total_executions s = len body) /\
  ((forall text body,
      requests_get (API_BASE_URL +:+ "/metrics/functions/" +:+ selected_function)
      <> Response 200 text (inr body)) ->
   metrics_page requests_get selected_function = Ok None /\
   exists message,
     snd (get_function_metrics requests_get selected_function) = [message]).
Proof.
  unfold metrics_page, get_function_metrics. split.
  - intros s. destruct (String.eqb_spec selected_function "") as [->|Hname];
      simpl; [discriminate|].
    destruct (requests_get _) as [reason|status_code text [reason|body]];
      simpl; try discriminate.
    + destruct (status_code =? 200); discriminate.
    + destruct (Z.eqb_spec status_code 200) as [->|_]; simpl; [|discriminate].
      intros Hs. split; [assumption|]. exists text, body.
      split; [reflexivity|].
      change (metrics_page_stats (Some body) = Ok (Some s)) in Hs.
      destruct (metrics_page_stats_Some _ _ Hs)
        as (metrics & executions & [= <-] & Hne & _ & _ & Hlen & Hcalc).
      split; [assumption|].
      destruct (stats_counts _ _ Hcalc) as (-> & _). unfold len. lia.
  - intros Hbad.
    destruct (requests_get _) as [reason|status_code text [reason|body]];
      simpl.
    + destruct (negb _); eauto.
    + destruct (status_code =? 200); simpl; destruct (negb _); eauto.
    + destruct (Z.eqb_spec status_code 200) as [->|_]; simpl.
      * by destruct (Hbad text body).
      * destruct (negb _); eauto.
Qed.

Lemma metrics_page_needs_a_good_response_witness :
  metrics_page (fun _ => Response 200 "" (inr sample_metrics)) "hello"
  = Ok (Some sample_metrics_summary) /\
  "hello" <> "" /\
  exists text body,
    Response 200 "" (inr sample_metrics) = Response 200 text (inr body) /\
    body <> [] /\ total_executions sample_metrics_summary = len body.
Proof.
  split; [vm_compute; reflexivity|].
  apply (proj1 (metrics_page_needs_a_good_response
                  (fun _ => Response 200 "" (inr sample_metrics)) "hello")
           sample_metrics_summary).
  vm_compute. reflexivity.
Defined.

(** * Further properties: the summary *)

(** ** The order of the records *)

Lemma count_if_Permutation (cond : record -> bool) (l l' : list record) :
  l ≡ₚ l' -> count_if cond l = count_if cond l'.
Proof.
  induction 1 as [|x l l' _ IH|x y l|l l' l'' _ IH1 _ IH2].
  - reflexivity.
  - by rewrite !count_if_cons, IH.
  - rewrite !count_if_cons. lia.
  - congruence.
Qed.

Lemma timings_are_numbers_Permutation (l l' : list record) :
  l ≡ₚ l' -> timings_are_numbers l -> timings_are_numbers l'.
Proof. intros Hp H e f v He. apply H. by rewrite Hp. Qed.

Lemma values_of_Permutation (key : string) (l l' : list record) :
  l ≡ₚ l' -> values_of key l ≡ₚ values_of key l'.
Proof. intros Hp. unfold values_of. by rewrite Hp. Qed.

(** Two minima, or two maxima, of lists with the same items have the
    same value. *)
Lemma extrema_Permutation (times times' : list pyval) (lo lo' hi hi' : pyval) :
  times ≡ₚ times' ->
  min_or_zero times = Ok lo -> min_or_zero times' = Ok lo' ->
  max_or_zero times = Ok hi -> max_or_zero times' = Ok hi' ->
  forallb is_number times = true ->
  (value_Q lo' == value_Q lo)%Q /\ (value_Q hi' == value_Q hi)%Q.
Proof.
  intros Hp Hlo Hlo' Hhi Hhi' Hnum.
  destruct (decide (times = [])) as [->|Hne].
  { apply Permutation_nil in Hp. subst times'. simpl in *.
    split; [assert (lo' = lo) as -> by congruence
           | assert (hi' = hi) as -> by congruence]; reflexivity. }
  assert (Hne' : times' <> []).
  { intros ->. apply Hne. apply Permutation_nil. by symmetry. }
  assert (Hnum' : forallb is_number times' = true).
  { apply forallb_forall. intros x Hx. rewrite forallb_forall in Hnum.
    apply Hnum. apply list_elem_of_In. rewrite Hp. by apply list_elem_of_In. }
  destruct (min_or_zero_numbers times Hne Hnum) as (a & Ha & Hain & Hale).
  destruct (min_or_zero_numbers times' Hne' Hnum') as (a' & Ha' & Hain' & Hale').
  destruct (max_or_zero_numbers times Hne Hnum) as (b & Hb & Hbin & Hble).
  destruct (max_or_zero_numbers times' Hne' Hnum') as (b' & Hb' & Hbin' & Hble').
  assert (a = lo) as -> by congruence. assert (a' = lo') as -> by congruence.
  assert (b = hi) as -> by congruence. assert (b' = hi') as -> by congruence.
  split; apply Qle_antisym.
  - apply Hale'. by rewrite <- Hp.
  - apply Hale. by rewrite Hp.
  - apply Hble. by rewrite Hp.
  - apply Hble'. by rewrite <- Hp.
Qed.

(** X9.  The summary of the same records in another order, for records
    whose timing fields hold no int beyond what a double represents
    exactly: the function returns for both orders or for neither, and
    the number of executions, the success rate, the runtime and
    start-type counts are the same, as are the values of the minimum and
    maximum of each timing field.  (The averages add the times in list
    order and are left out; the hypothesis on the ints keeps to the
    inputs on which Python raises no [OverflowError].) *)
Theorem summary_ignores_order (l l' : list record) (s : stats) :
  timings_within_double_range l ->
  l ≡ₚ l' ->
  calculate_function_stats l = Ok s ->
  exists s',
    calculate_function_stats l' = Ok s' /\
    total_executions s' = total_executions s /\
    success_rate s' = success_rate s /\
    runtime_distribution s' = runtime_distribution s /\
    warm_vs_cold s' = warm_vs_cold s /\
    forall f, (value_Q (min_of f s') == value_Q (min_of f s))%Q /\
              (value_Q (max_of f s') == value_Q (max_of f s))%Q.
Proof.
  intros _ Hp Hs.
  pose proof (calculate_function_stats_Ok_numbers _ _ Hs) as Hnum.
  destruct (calculate_function_stats_returns l'
              (timings_are_numbers_Permutation _ _ Hp Hnum)) as [s' Hs'].
  exists s'. split; [exact Hs'|].
  destruct (stats_counts _ _ Hs) as (Ht & Hd & Hg & Hw & Hc).
  destruct (stats_counts _ _ Hs') as (Ht' & Hd' & Hg' & Hw' & Hc').
  assert (Hlen : len l' = len l).
  { unfold len. f_equal. symmetry. by apply Permutation_length. }
  split; [congruence|]. split; [|split; [|split]].
  - destruct (decide (l = [])) as [->|Hne].
    + apply Permutation_nil in Hp. subst l'. congruence.
    + assert (Hne' : l' <> []).
      { intros ->. apply Hne, Permutation_nil. by symmetry. }
      rewrite (stats_success_rate _ _ Hne Hs), (stats_success_rate _ _ Hne' Hs').
      unfold successful_count.
      by rewrite Hlen, (count_if_Permutation _ _ _ Hp).
  - destruct (runtime_distribution s), (runtime_distribution s').
    simpl in *. subst. f_equal; symmetry; by apply count_if_Permutation.
  - destruct (warm_vs_cold s), (warm_vs_cold s').
    simpl in *. subst. f_equal; symmetry; by apply count_if_Permutation.
  - intros f.
    destruct (stats_field _ _ f Hs) as (_ & Hlo & Hhi).
    destruct (stats_field _ _ f Hs') as (_ & Hlo' & Hhi').
    apply (extrema_Permutation _ _ _ _ _ _
             (values_of_Permutation (field_key f) _ _ Hp) Hlo Hlo' Hhi Hhi').
    by apply timings_are_numbers_values.
Qed.

Lemma scenario_within_range : timings_within_double_range scenario.
Proof.
  apply timings_within_double_range_values.
  split; [reflexivity | intros []; vm_compute; reflexivity].
Defined.

Lemma summary_ignores_order_witness :
  timings_within_double_range scenario /\
  scenario ≡ₚ reverse scenario /\
  calculate_function_stats scenario = Ok scenario_summary /\
  exists s',
    calculate_function_stats (reverse scenario) = Ok s' /\
    total_executions s' = total_executions scenario_summary /\
    success_rate s' = success_rate scenario_summary /\
    runtime_distribution s' = runtime_distribution scenario_summary /\
    warm_vs_cold s' = warm_vs_cold scenario_summary /\
    forall f,
      (value_Q (min_of f s') == value_Q (min_of f scenario_summary))%Q /\
      (value_Q (max_of f s') == value_Q (max_of f scenario_summary))%Q.
Proof.
  assert (Hp : scenario ≡ₚ reverse scenario) by apply Permutation_swap.
  split; [exact scenario_within_range|].
  split; [exact Hp|]. split; [vm_compute; reflexivity|].
  apply (summary_ignores_order scenario (reverse scenario) scenario_summary
           scenario_within_range Hp).
  vm_compute. reflexivity.
Defined.

(** ** Two lists of records put together *)

Lemma timings_are_numbers_app (l1 l2 : list record) :
  timings_are_numbers (l1 ++ l2) <->
  timings_are_numbers l1 /\ timings_are_numbers l2.
Proof.
  unfold timings_are_numbers. split.
  - intros H. split; intros e f v He; apply H; rewrite elem_of_app; auto.
  - intros [H1 H2] e f v [He|He]%elem_of_app; eauto.
Qed.

Lemma values_of_app (key : string) (l1 l2 : list record) :
  values_of key (l1 ++ l2) = values_of key l1 ++ values_of key l2.
Proof. apply omap_app. Qed.

(** X10.  When the timing fields of two lists hold no int beyond what a
    double represents exactly, the function returns on their
    concatenation exactly when it returns on both.  Whenever it returns
    on the three, the number of executions and the docker, gvisor, warm
    and cold counts of the concatenation are the sums of those of the
    two lists.  (The hypothesis on the ints keeps to the inputs on which
    Python raises no [OverflowError].) *)
Theorem summary_counts_add_up (l1 l2 : list record) :
  (timings_within_double_range (l1 ++ l2) ->
   ((exists s, calculate_function_stats (l1 ++ l2) = Ok s) <->
    (exists s1, calculate_function_stats l1 = Ok s1) /\
    (exists s2, calculate_function_stats l2 = Ok s2))) /\
  (forall s1 s2 s,
     calculate_function_stats l1 = Ok s1 ->
     calculate_function_stats l2 = Ok s2 ->
     calculate_function_stats (l1 ++ l2) = Ok s ->
     total_executions s = total_executions s1 + total_executions s2 /\
     docker (runtime_distribution s)
       = docker (runtime_distribution s1) + docker (runtime_distribution s2) /\
     gvisor (runtime_distribution s)
       = gvisor (runtime_distribution s1) + gvisor (runtime_distribution s2) /\
     warm (warm_vs_cold s) = warm (warm_vs_cold s1) + warm (warm_vs_cold s2) /\
     cold (warm_vs_cold s) = cold (warm_vs_cold s1) + cold (warm_vs_cold s2)).
Proof.
  split.
  - intros _. split.
    + intros [s Hs%calculate_function_stats_Ok_numbers].
      apply timings_are_numbers_app in Hs as [H1 H2].
      split; by apply calculate_function_stats_returns.
    + intros [[s1 H1%calculate_function_stats_Ok_numbers]
              [s2 H2%calculate_function_stats_Ok_numbers]].
      apply calculate_function_stats_returns, timings_are_numbers_app. auto.
  - intros s1 s2 s
      (-> & -> & -> & -> & ->)%stats_counts
      (-> & -> & -> & -> & ->)%stats_counts
      (-> & -> & -> & -> & ->)%stats_counts.
    rewrite !count_if_app. unfold len. rewrite length_app. lia.
Qed.

Lemma summary_counts_add_up_witness :
  timings_within_double_range (scenario ++ scenario) /\
  calculate_function_stats scenario = Ok scenario_summary /\
  exists s, calculate_function_stats (scenario ++ scenario) = Ok s.
Proof.
  assert (Hr : timings_within_double_range (scenario ++ scenario)).
  { apply timings_within_double_range_values.
    split; [reflexivity | intros []; vm_compute; reflexivity]. }
  assert (H : calculate_function_stats scenario = Ok scenario_summary)
    by (vm_compute; reflexivity).
  split; [exact Hr|]. split; [exact H|].
  apply (proj2 (proj1 (summary_counts_add_up scenario scenario) Hr)).
  split; exists scenario_summary; exact H.
Defined.

(** X11.  The minimum and maximum of a timing field over the
    concatenation of two lists.  When both lists have records with the
    field, the minimum has the smaller of the two minimum values and the
    maximum the larger of the two maximum values.  When one list has no
    record with the field, the average, minimum and maximum are those of
    the other list: the zeros that stand for no data in the first
    summary are not values. *)
Theorem extrema_of_concatenation
    (l1 l2 : list record) (s1 s2 s : stats) (f : timing_field) :
  calculate_function_stats l1 = Ok s1 ->
  calculate_function_stats l2 = Ok s2 ->
  calculate_function_stats (l1 ++ l2) = Ok s ->
  (values_of (field_key f) l1 = [] ->
   avg_of f s = avg_of f s2 /\ min_of f s = min_of f s2 /\
   max_of f s = max_of f s2) /\
  (values_of (field_key f) l2 = [] ->
   avg_of f s = avg_of f s1 /\ min_of f s = min_of f s1 /\
   max_of f s = max_of f s1) /\
  (values_of (field_key f) l1 <> [] -> values_of (field_key f) l2 <> [] ->
   (value_Q (min_of f s)
    == Qmin (value_Q (min_of f s1)) (value_Q (min_of f s2)))%Q /\
   (value_Q (max_of f s)
    == Qmax (value_Q (max_of f s1)) (value_Q (max_of f s2)))%Q).
Proof.
  intros H1 H2 H.
  destruct (stats_field _ _ f H1) as (Ha1 & Hlo1 & Hhi1).
  destruct (stats_field _ _ f H2) as (Ha2 & Hlo2 & Hhi2).
  destruct (stats_field _ _ f H) as (Ha & Hlo & Hhi).
  rewrite values_of_app in Ha, Hlo, Hhi.
  split; [|split].
  - intros Hnil. rewrite Hnil in Ha, Hlo, Hhi. simpl app in *.
    repeat split; congruence.
  - intros Hnil. rewrite Hnil, app_nil_r in Ha, Hlo, Hhi.
    repeat split; congruence.
  - intros Hne1 Hne2.
    pose proof (avg_or_zero_Ok_numbers _ _ Ha1) as Hnum1.
    pose proof (avg_or_zero_Ok_numbers _ _ Ha2) as Hnum2.
    pose proof (avg_or_zero_Ok_numbers _ _ Ha) as Hnum.
    set (t1 := values_of (field_key f) l1) in *.
    set (t2 := values_of (field_key f) l2) in *.
    assert (Hne : t1 ++ t2 <> []) by (by destruct t1).
    destruct (min_or_zero_numbers _ Hne1 Hnum1) as (a1 & Ea1 & Hin1 & Hle1).
    destruct (min_or_zero_numbers _ Hne2 Hnum2) as (a2 & Ea2 & Hin2 & Hle2).
    destruct (min_or_zero_numbers _ Hne Hnum) as (a & Ea & Hin & Hle).
    destruct (max_or_zero_numbers _ Hne1 Hnum1) as (b1 & Eb1 & Hjn1 & Hge1).
    destruct (max_or_zero_numbers _ Hne2 Hnum2) as (b2 & Eb2 & Hjn2 & Hge2).
    destruct (max_or_zero_numbers _ Hne Hnum) as (b & Eb & Hjn & Hge).
    assert (min_of f s1 = a1) as -> by congruence.
    assert (min_of f s2 = a2) as -> by congruence.
    assert (min_of f s = a) as -> by congruence.
    assert (max_of f s1 = b1) as -> by congruence.
    assert (max_of f s2 = b2) as -> by congruence.
    assert (max_of f s = b) as -> by congruence.
    split; apply Qle_antisym.
    + apply Q.min_glb; apply Hle; rewrite elem_of_app; auto.
    + apply elem_of_app in Hin as [Hin|Hin].
      * apply Qle_trans with (value_Q a1); [apply Q.le_min_l | by apply Hle1].
      * apply Qle_trans with (value_Q a2); [apply Q.le_min_r | by apply Hle2].
    + apply elem_of_app in Hjn as [Hjn|Hjn].
      * apply Qle_trans with (value_Q b1); [by apply Hge1 | apply Q.le_max_l].
      * apply Qle_trans with (value_Q b2); [by apply Hge2 | apply Q.le_max_r].
    + apply Q.max_lub; apply Hge; rewrite elem_of_app; auto.
Qed.

Lemma extrema_of_concatenation_witness :
  calculate_function_stats scenario = Ok scenario_summary /\
  calculate_function_stats [null_cold_start]
    = Ok {| total_executions := 1; success_rate := VFloat 0;
            avg_initialization_time := VInt 0;
            min_initialization_time := VInt 0;
            max_initialization_time := VInt 0;
            avg_execution_time := VInt 0; min_execution_time := VInt 0;
            max_execution_time := VInt 0; avg_total_time := VInt 0;
            min_total_time := VInt 0; max_total_time := VInt 0;
            runtime_distribution := {| docker := 0; gvisor := 0 |};
            warm_vs_cold := {| warm := 1; cold := 0 |} |} /\
  exists s,
    calculate_function_stats ([null_cold_start] ++ scenario) = Ok s /\
    (values_of (field_key Execution) [null_cold_start] = [] ->
     avg_of Execution s = avg_of Execution scenario_summary /\
     min_of Execution s = min_of Execution scenario_summary /\
     max_of Execution s = max_of Execution scenario_summary).
Proof.
  split; [vm_compute; reflexivity|]. split; [vm_compute; reflexivity|].
  eexists. split; [vm_compute; reflexivity|].
  refine (proj1 (extrema_of_concatenation
                   [null_cold_start] scenario _ scenario_summary _
                   Execution _ _ _)); vm_compute; reflexivity.
Defined.

(** * Further properties: the comparison page *)

(** ** Which exception a percentage difference raises *)

(** The result of [percentage_diff], case by case. *)
Lemma percentage_diff_by_cases (gvisor_stats docker_stats : record)
    (key : string) :
  match docker_stats !! key with
  | None => percentage_diff gvisor_stats docker_stats key = Raise KeyError
  | Some c =>
      if truthy c then
        match gvisor_stats !! key with
        | None => percentage_diff gvisor_stats docker_stats key = Raise KeyError
        | Some g =>
            if is_number c && is_number g
            then exists q,
                percentage_diff gvisor_stats docker_stats key = Ok (VFloat q)
            else percentage_diff gvisor_stats docker_stats key = Raise TypeError
        end
      else percentage_diff gvisor_stats docker_stats key = Ok (VInt 0)
  end.
Proof.
  destruct (docker_stats !! key) as [c|] eqn:Hc.
  2: { unfold percentage_diff, subscript. by rewrite Hc. }
  destruct (truthy c) eqn:Hc_true.
  2: { unfold percentage_diff, subscript. rewrite Hc. cbn [bind].
       by rewrite Hc_true. }
  destruct (gvisor_stats !! key) as [g|] eqn:Hg.
  2: { unfold percentage_diff, subscript. rewrite Hc, Hg. cbn [bind].
       by rewrite Hc_true. }
  destruct (is_number c) eqn:Hcnum, (is_number g) eqn:Hgnum; cbn [andb].
  - pose proof (percentage_diff_numbers _ _ _ _ _ Hc Hg Hcnum Hgnum) as H.
    rewrite (truthy_number c Hcnum) in Hc_true.
    destruct (Qeq_bool (value_Q c) 0); [discriminate|].
    destruct H as (q & Hq & _). eauto.
  - unfold percentage_diff, subscript. rewrite Hc, Hg. cbn [bind].
    rewrite Hc_true. unfold py_sub. by rewrite arith_not_number by auto.
  - unfold percentage_diff, subscript. rewrite Hc, Hg. cbn [bind].
    rewrite Hc_true. unfold py_sub. by rewrite arith_not_number by auto.
  - unfold percentage_diff, subscript. rewrite Hc, Hg. cbn [bind].
    rewrite Hc_true. unfold py_sub. by rewrite arith_not_number by auto.
Qed.

(** X12.  For averages that are not ints beyond what a double represents
    exactly, a percentage difference raises [KeyError] exactly when the
    docker average is missing, or is a true value while the gvisor
    average is missing; it raises [TypeError] exactly when the docker
    average is a true value, the gvisor average is present, and one of
    the two is not a number; it raises nothing else.  So a docker
    average that is a false value hides a missing or malformed gvisor
    average.  (The hypothesis on the ints keeps to the inputs on which
    Python raises no [OverflowError].) *)
Theorem percentage_diff_errors (gvisor_stats docker_stats : record)
    (key : string) :
  (forall v, docker_stats !! key = Some v -> within_double v = true) ->
  (forall v, gvisor_stats !! key = Some v -> within_double v = true) ->
  (percentage_diff gvisor_stats docker_stats key = Raise KeyError <->
   docker_stats !! key = None \/
   exists c, docker_stats !! key = Some c /\ truthy c = true /\
             gvisor_stats !! key = None) /\
  (percentage_diff gvisor_stats docker_stats key = Raise TypeError <->
   exists c g, docker_stats !! key = Some c /\ truthy c = true /\
               gvisor_stats !! key = Some g /\
               (is_number c = false \/ is_number g = false)) /\
  (forall x, percentage_diff gvisor_stats docker_stats key = Raise x ->
             x = KeyError \/ x = TypeError).
Proof.
  intros _ _.
  pose proof (percentage_diff_by_cases gvisor_stats docker_stats key) as H.
  destruct (docker_stats !! key) as [c|] eqn:Hc.
  2: { rewrite H. split; [|split].
       - split; auto.
       - split; [discriminate|]. intros (? & ? & [=] & _).
       - intros x [= <-]. auto. }
  destruct (truthy c) eqn:Hc_true.
  2: { rewrite H. split; [|split].
       - split; [discriminate|].
         intros [[=]|(c' & [= <-] & Habs & _)]. congruence.
       - split; [discriminate|]. intros (c' & g & [= <-] & Habs & _).
         congruence.
       - discriminate. }
  destruct (gvisor_stats !! key) as [g|] eqn:Hg.
  2: { rewrite H. split; [|split].
       - split; eauto.
       - split; [discriminate|]. intros (? & ? & _ & _ & [=] & _).
       - intros x [= <-]. auto. }
  destruct (is_number c) eqn:Hcnum, (is_number g) eqn:Hgnum; cbn [andb] in H.
  1: { destruct H as [q ->]. split; [|split].
       - split; [discriminate|]. intros [[=]|(? & _ & _ & [=])].
       - split; [discriminate|].
         intros (c' & g' & [= <-] & _ & [= <-] & [Hn|Hn]); congruence.
       - discriminate. }
  all: rewrite H; (split; [|split]);
    [ split; [discriminate|]; intros [[=]|(? & _ & _ & [=])]
    | split; [intros _; exists c, g; auto|reflexivity]
    | intros x [= <-]; auto ].
Qed.

Lemma percentage_diff_errors_witness :
  percentage_diff ∅ (averages (VInt 100) (VInt 100) (VInt 100))
                  "avg_init_time_ms" = Raise KeyError.
Proof.
  apply (proj1 (percentage_diff_errors
                  ∅ (averages (VInt 100) (VInt 100) (VInt 100))
                  "avg_init_time_ms"
                  ltac:(intros v [= <-]; reflexivity)
                  ltac:(intros v Hv; discriminate Hv))).
  right. exists (VInt 100). repeat split; vm_compute; reflexivity.
Defined.

(** ** How far below zero a difference can go *)



(** ** The verdict *)

Lemma verdict_number (v : pyval) :
  is_number v = true ->
  exists m,
    verdict v = Ok (if Qlt_le_dec 0 (value_Q v) then Slower else Faster, m) /\
    is_number m = true /\ (value_Q m == Qabs (value_Q v))%Q.
Proof.
  intros Hv.
  destruct (py_gt_numbers v (VInt 0) Hv eq_refl) as (b & Hb & Hbspec).
  change (value_Q (VInt 0)) with 0%Q in Hbspec.
  assert (Habs : exists m, py_abs v = Ok m /\ is_number m = true /\
                           (value_Q m == Qabs (value_Q v))%Q).
  { unfold py_abs, value_Q.
    destruct v as [|[]|z|q| | |]; try discriminate; simpl;
      eexists; (split; [reflexivity|]); (split; [reflexivity|]);
      unfold value_Q; simpl; reflexivity. }
  destruct Habs as (m & Hm & Hmnum & Hmval). exists m.
  unfold verdict. rewrite Hb. cbn [bind]. rewrite Hm.
  split; [|auto].
  destruct b, (Qlt_le_dec 0 (value_Q v)) as [Hlt|Hle]; try reflexivity.
  - exfalso. assert (0 < value_Q v)%Q by (by apply Hbspec). lra.
  - apply Hbspec in Hlt. discriminate.
Qed.

Lemma percentage_diff_is_a_number (gvisor_stats docker_stats : record)
    (key : string) (v : pyval) :
  percentage_diff gvisor_stats docker_stats key = Ok v -> is_number v = true.
Proof.
  intros Hv.
  pose proof (percentage_diff_by_cases gvisor_stats docker_stats key) as H.
  destruct (docker_stats !! key) as [c|]; [|congruence].
  destruct (truthy c).
  - destruct (gvisor_stats !! key) as [g|]; [|congruence].
    destruct (is_number c && is_number g); [|congruence].
    destruct H as [q Hq]. rewrite Hq in Hv. by injection Hv as <-.
  - rewrite H in Hv. by injection Hv as <-.
Qed.

(** X14.  Whatever difference [percentage_diff] returns, the verdict on
    it raises nothing: it reads slower exactly when the difference is
    above zero, faster otherwise (also for a difference of zero), and
    the number in the message is the absolute value of the difference. *)
Theorem verdict_of_a_difference (gvisor_stats docker_stats : record)
    (key : string) (diff : pyval) :
  percentage_diff gvisor_stats docker_stats key = Ok diff ->
  exists d m,
    verdict diff = Ok (d, m) /\
    (d = Slower <-> (0 < value_Q diff)%Q) /\
    (d = Faster <-> (value_Q diff <= 0)%Q) /\
    (value_Q m == Qabs (value_Q diff))%Q /\ (0 <= value_Q m)%Q.
Proof.
  intros Hnum%percentage_diff_is_a_number.
  destruct (verdict_number diff Hnum) as (m & Hm & _ & Hmval).
  eexists _, m. split; [exact Hm|].
  split; [|split; [|split]].
  - destruct (Qlt_le_dec 0 (value_Q diff)); split;
      first [done | intros; lra].
  - destruct (Qlt_le_dec 0 (value_Q diff)); split;
      first [done | intros; lra].
  - exact Hmval.
  - rewrite Hmval. apply Qabs_nonneg.
Qed.

Lemma verdict_of_a_difference_witness :
  exists d m,
    verdict (VFloat (-20)) = Ok (d, m) /\
    (d = Slower <-> (0 < value_Q (VFloat (-20)))%Q) /\
    (d = Faster <-> (value_Q (VFloat (-20)) <= 0)%Q) /\
    (value_Q m == Qabs (value_Q (VFloat (-20))))%Q /\ (0 <= value_Q m)%Q.
Proof.
  apply (verdict_of_a_difference
           (averages (VInt 150) (VInt 80) (VFloat 150))
           (averages (VInt 100) (VInt 100) (VFloat 100))
           "avg_exec_time_ms").
  vm_compute. reflexivity.
Defined.

Lemma percentage_sign (c g q : Q) :
  (0 < c)%Q -> (q == (g - c) / c * 100)%Q -> ((0 < q)%Q <-> (c < g)%Q).
Proof.
  intros Hpos Hq.
  assert (Hscale : (q * c == 100 * (g - c))%Q).
  { rewrite Hq. field. lra. }
  split.
  - intros Hq0. assert (0 < q * c)%Q by (by apply Qmult_lt_0_compat). lra.
  - intros Hslower. destruct (Qlt_le_dec 0 q) as [|Hle]; [assumption|].
    exfalso. assert (q * c <= 0)%Q.
    { rewrite <- (Qmult_0_l c). apply Qmult_le_compat_r; lra. }
    lra.
Qed.

(** X15.  For a positive docker average, neither average being an int
    beyond what a double represents exactly, the verdict on the
    percentage difference of a metric reads slower exactly when the
    gvisor average is above the docker average; equal averages read
    faster.  The number in the message is 100 times the distance between
    the two averages over the docker average. *)
Theorem verdict_follows_the_averages
    (gvisor_stats docker_stats : record) (key : string) (c g : pyval) :
  docker_stats !! key = Some c -> gvisor_stats !! key = Some g ->
  is_number c = true -> is_number g = true ->
  within_double c = true -> within_double g = true ->
  (0 < value_Q c)%Q ->
  exists diff d m,
    percentage_diff gvisor_stats docker_stats key = Ok diff /\
    verdict diff = Ok (d, m) /\
    (d = Slower <-> (value_Q c < value_Q g)%Q) /\
    (d = Faster <-> (value_Q g <= value_Q c)%Q) /\
    (value_Q m == 100 * Qabs (value_Q g - value_Q c) / value_Q c)%Q.
Proof.
  intros Hc Hg Hcnum Hgnum _ _ Hpos.
  pose proof (percentage_diff_numbers _ _ _ _ _ Hc Hg Hcnum Hgnum) as H.
  destruct (Qeq_bool (value_Q c) 0) eqn:Hzero.
  { apply Qeq_bool_iff in Hzero. lra. }
  destruct H as (q & Hq & Hqval).
  destruct (verdict_number (VFloat q) eq_refl) as (m & Hm & _ & Hmval).
  change (value_Q (VFloat q)) with q in *.
  pose proof (percentage_sign _ _ _ Hpos Hqval) as Hsign.
  eexists (VFloat q), _, m. split; [exact Hq|]. split; [exact Hm|].
  split; [|split].
  - destruct (Qlt_le_dec 0 q) as [Hlt|Hle]; split; try done.
    + intros _. by apply Hsign.
    + intros Hlt%Hsign. lra.
  - destruct (Qlt_le_dec 0 q) as [Hlt|Hle]; split; try done.
    + intros Hle. apply Hsign in Hlt. lra.
    + intros _. apply Qnot_lt_le. intros Hlt%Hsign. lra.
  - rewrite Hmval, Hqval.
    assert (Hnz : ~ (value_Q c == 0)%Q) by lra.
    assert (Hfac : ((value_Q g - value_Q c) / value_Q c * 100
                    == (value_Q g - value_Q c) * (100 / value_Q c))%Q)
      by (field; exact Hnz).
    rewrite Hfac, Qabs_Qmult.
    rewrite (Qabs_pos (100 / value_Q c)).
    + field. exact Hnz.
    + apply Qle_shift_div_l; [assumption|]. lra.
Qed.

Lemma verdict_follows_the_averages_witness :
  exists diff d m,
    percentage_diff (averages (VInt 150) (VInt 80) (VFloat 150))
                    (averages (VInt 100) (VInt 100) (VFloat 100))
                    "avg_init_time_ms" = Ok diff /\
    verdict diff = Ok (d, m) /\
    (d = Slower <-> (value_Q (VInt 100) < value_Q (VInt 150))%Q) /\
    (d = Faster <-> (value_Q (VInt 150) <= value_Q (VInt 100))%Q) /\
    (value_Q m == 100 * Qabs (value_Q (VInt 150) - value_Q (VInt 100))
                  / value_Q (VInt 100))%Q.
Proof.
  apply (verdict_follows_the_averages
           (averages (VInt 150) (VInt 80) (VFloat 150))
           (averages (VInt 100) (VInt 100) (VFloat 100))
           "avg_init_time_ms" (VInt 100) (VInt 150)).
  - vm_compute. reflexivity.
  - vm_compute. reflexivity.
  - reflexivity.
  - reflexivity.
  - reflexivity.
  - reflexivity.
  - reflexivity.
Defined.

(** X16.  When the docker average of a metric is a number equal to zero
    and the gvisor average is a number (not an int beyond what a double
    represents exactly), the difference computed for the metric is 0 and
    the test under the chart, applied to it, selects the faster message
    with the number 0: also when the gvisor average is above zero. *)
Theorem zero_baseline_reads_faster
    (gvisor_stats docker_stats : record) (key : string) (c g : pyval) :
  docker_stats !! key = Some c -> is_number c = true ->
  (value_Q c == 0)%Q ->
  gvisor_stats !! key = Some g -> is_number g = true ->
  within_double g = true ->
  exists diff,
    percentage_diff gvisor_stats docker_stats key = Ok diff /\
    verdict diff = Ok (Faster, VInt 0).
Proof.
  intros Hc Hcnum Hzero Hg Hgnum _.
  pose proof (percentage_diff_numbers _ _ _ _ _ Hc Hg Hcnum Hgnum) as H.
  apply Qeq_bool_iff in Hzero. rewrite Hzero in H.
  exists (VInt 0). split; [exact H | reflexivity].
Qed.

Lemma zero_baseline_reads_faster_witness :
  exists diff,
    percentage_diff (averages (VInt 5) (VInt 150) (VFloat 7))
                    (averages (VInt 0) (VInt 100) (VFloat 0))
                    "avg_total_time_ms" = Ok diff /\
    verdict diff = Ok (Faster, VInt 0).
Proof.
  apply (zero_baseline_reads_faster
           (averages (VInt 5) (VInt 150) (VFloat 7))
           (averages (VInt 0) (VInt 100) (VFloat 0))
           "avg_total_time_ms" (VFloat 0) (VFloat 7)).
  - vm_compute. reflexivity.
  - reflexivity.
  - reflexivity.
  - vm_compute. reflexivity.
  - reflexivity.
  - reflexivity.
Defined.

(** * Further properties: the function page *)

Lemma eq_str_true (v : pyval) (s : string) :
  eq_str v s = true <-> v = VStr s.
Proof.
  destruct v; simpl; try (split; discriminate).
  rewrite String.eqb_eq. split; congruence.
Qed.

Lemma find_function_first (before after : list record) (f : record)
    (selected : string) :
  (forall g, g ∈ before ->
     is_Some (g !! "name") /\ g !! "name" <> Some (VStr selected)) ->
  f !! "name" = Some (VStr selected) ->
  find_function (before ++ f :: after) selected = Ok (Some f).
Proof.
  intros Hbefore Hf. induction before as [|g before IH]; simpl.
  - unfold subscript. rewrite Hf. simpl. by rewrite String.eqb_refl.
  - destruct (Hbefore g (list_elem_of_here _ _)) as [[n Hn] Hne].
    unfold subscript. rewrite Hn. simpl.
    destruct (eq_str n selected) eqn:Heq.
    + apply eq_str_true in Heq. congruence.
    + apply IH. intros g' Hg'. apply Hbefore. by apply list_elem_of_further.
Qed.

Lemma find_function_none (functions : list record) (selected : string) :
  (forall g, g ∈ functions ->
     is_Some (g !! "name") /\ g !! "name" <> Some (VStr selected)) ->
  find_function functions selected = Ok None.
Proof.
  induction functions as [|g functions IH]; intros Hall; [reflexivity|].
  simpl. destruct (Hall g (list_elem_of_here _ _)) as [[n Hn] Hne].
  unfold subscript. rewrite Hn. simpl.
  destruct (eq_str n selected) eqn:Heq.
  - apply eq_str_true in Heq. congruence.
  - apply IH. intros g' Hg'. apply Hall. by apply list_elem_of_further.
Qed.

(** A list of named functions either has a first function of the given
    name, or has none. *)
Lemma first_named (functions : list record) (selected : string) :
  (forall g, g ∈ functions -> is_Some (g !! "name")) ->
  (exists before f after,
      functions = before ++ f :: after /\
      f !! "name" = Some (VStr selected) /\
      forall g, g ∈ before -> g !! "name" <> Some (VStr selected)) \/
  (forall g, g ∈ functions -> g !! "name" <> Some (VStr selected)).
Proof.
  induction functions as [|g functions IH]; intros Hall.
  - right. intros g Hg. by apply elem_of_nil in Hg.
  - destruct (Hall g (list_elem_of_here _ _)) as [n Hn].
    destruct (eq_str n selected) eqn:Heq.
    + apply eq_str_true in Heq. subst n. left. exists [], g, functions.
      repeat split; [assumption|]. intros g' Hg'. by apply elem_of_nil in Hg'.
    + assert (Hg : g !! "name" <> Some (VStr selected)).
      { rewrite Hn. intros [= ->]. simpl in Heq.
        by rewrite String.eqb_refl in Heq. }
      destruct IH as [(before & f & after & -> & Hf & Hbefore)|Hnone].
      { intros g' Hg'. apply Hall. by apply list_elem_of_further. }
      * left. exists (g :: before), f, after. repeat split; [assumption|].
        intros g' [->|Hg']%elem_of_cons; auto.
      * right. intros g' [->|Hg']%elem_of_cons; auto.
Qed.

Lemma page_branch_of_named (functions : list record) (selected : string) :
  (forall g, g ∈ functions -> is_Some (g !! "name")) ->
  page_branch_of functions selected =
  if String.eqb selected create_label then Ok CreateBranch
  else
    let* func := find_function functions selected in
    Ok (EditBranch func).
Proof.
  intros [names Hnames]%function_names_complete.
  unfold page_branch_of, select_options. by rewrite Hnames.
Qed.

(** X17.  On a list of functions that all have a name, for a selection
    that is a string: the selection of the creation label takes the
    creation branch, even if a function has that very name; any other
    selection takes the other branch, where [func] is bound to the first
    function with the selected name, so that a function whose name an
    earlier one has too is never the one bound, and to [None] exactly
    when no function has the name.  If some function has no name,
    [KeyError] is raised before the selection. *)
Theorem func_is_the_first_match
    (functions : list record) (selected : string) :
  ((exists g, g ∈ functions /\ g !! "name" = None) ->
   page_branch_of functions selected = Raise KeyError) /\
  ((forall g, g ∈ functions -> is_Some (g !! "name")) ->
   (selected = create_label ->
    page_branch_of functions selected = Ok CreateBranch) /\
   (selected <> create_label ->
    (forall f,
       page_branch_of functions selected = Ok (EditBranch (Some f)) <->
       exists before after,
         functions = before ++ f :: after /\
         f !! "name" = Some (VStr selected) /\
         forall g, g ∈ before -> g !! "name" <> Some (VStr selected)) /\
    (page_branch_of functions selected = Ok (EditBranch None) <->
     forall g, g ∈ functions -> g !! "name" <> Some (VStr selected)))).
Proof.
  split.
  - intros (g & Hg & Hnone). unfold page_branch_of, select_options.
    destruct (function_names_cases functions) as [(names & H & _)| ->];
      [|reflexivity].
    destruct (proj2 (function_names_complete functions) (ex_intro _ names H)
                g Hg) as [v Hv].
    congruence.
  - intros Hall. rewrite (page_branch_of_named _ _ Hall). split.
    + intros ->. by rewrite String.eqb_refl.
    + intros Hsel. apply String.eqb_neq in Hsel. rewrite Hsel.
      assert (Hfirst : forall before f after,
        functions = before ++ f :: after ->
        f !! "name" = Some (VStr selected) ->
        (forall g, g ∈ before -> g !! "name" <> Some (VStr selected)) ->
        find_function functions selected = Ok (Some f)).
      { intros before f after -> Hf Hbefore.
        apply find_function_first; [|assumption].
        intros g Hg. split; [|by apply Hbefore].
        apply Hall. rewrite elem_of_app. auto. }
      assert (Hnone : (forall g, g ∈ functions ->
                         g !! "name" <> Some (VStr selected)) ->
        find_function functions selected = Ok None).
      { intros Hno. apply find_function_none.
        intros g Hg. split; [by apply Hall | by apply Hno]. }
      destruct (first_named functions selected Hall)
        as [(before & f0 & after & Heq & Hf0 & Hbefore)|Hno].
      * rewrite (Hfirst _ _ _ Heq Hf0 Hbefore). simpl. split.
        -- intros f. split.
           ++ intros [= <-]. eauto.
           ++ intros (before' & after' & Heq' & Hf & Hbefore').
              pose proof (Hfirst _ _ _ Heq' Hf Hbefore') as H'.
              rewrite (Hfirst _ _ _ Heq Hf0 Hbefore) in H'. congruence.
        -- split; [discriminate|]. intros Hno. exfalso.
           apply (Hno f0); [|assumption]. rewrite Heq, elem_of_app, elem_of_cons.
           auto.
      * rewrite (Hnone Hno). simpl. split.
        -- intros f. split; [discriminate|].
           intros (before & after & Heq & Hf & _). exfalso.
           apply (Hno f); [|assumption]. rewrite Heq, elem_of_app, elem_of_cons.
           auto.
        -- by split.
Qed.

Lemma func_is_the_first_match_witness :
  (forall g, g ∈ sample_functions -> is_Some (g !! "name")) /\
  "hello" <> create_label /\
  page_branch_of sample_functions "hello" = Ok (EditBranch (Some first_hello)).
Proof.
  assert (H : forall g, g ∈ sample_functions -> is_Some (g !! "name")).
  { intros g Hg. unfold sample_functions in Hg.
    repeat (apply elem_of_cons in Hg as [->|Hg];
            [eexists; vm_compute; reflexivity|]).
    by apply elem_of_nil in Hg. }
  assert (Hsel : "hello" <> create_label) by discriminate.
  split; [exact H|]. split; [exact Hsel|].
  apply (proj1 (proj2 (proj2 (func_is_the_first_match
                                sample_functions "hello") H) Hsel)
           first_hello).
  exists [], (tail sample_functions). repeat split.
  intros g Hg. by apply elem_of_nil in Hg.
Defined.
